(** * extract_sleep.py: a shallow embedding of [extract_sleep_data]

    The pipeline of [src/extract_sleep.py] reads [apple_health_export/export.xml]
    out of a zip archive, walks the [iterparse] event stream, keeps the
    [Record] elements whose [type] contains a sleep keyword, loads them in a
    data frame, converts the three date columns, keeps the rows of the last 30
    days of available data and writes the frame to a parquet file.

    The development follows the source top to bottom:
    - [Py]       : Python values the script manipulates (exceptions, substring test);
    - [ET]       : [xml.etree.ElementTree] elements as mutable objects in a store,
                   and the event stream of [iterparse];
    - [Filter]   : the loop of lines 30-49, with its [elem.clear()] and
                   [root.clear()];
    - [Pandas]   : the fragment of pandas the script calls;
    - [Pipeline] : [extract_sleep_data] itself, as a state-passing function over
                   a file system and a standard output;
    - [Reference]: one concrete instance of the date parsers and a few
                   documents, used by the closed examples;
    - [Spec]     : the vocabulary of the specification;
    - [Samples]  : the sample documents run through the pipeline. *)

From Stdlib Require Import ZArith Lia.
From stdpp Require Import base option list strings gmap pretty.

Set Warnings "-register-all".
Open Scope Z_scope.
Open Scope nat_scope.

(* ===================================================================== *)
(** ** Python values *)
(* ===================================================================== *)

Module Py.

(** The exceptions that can leave [extract_sleep_data]. *)
Inductive exn :=
  | FileNotFoundError   (* zipfile.ZipFile on a path that does not exist *)
  | BadZipFile          (* zipfile.ZipFile on a file that is not a zip archive *)
  | KeyError            (* ZipFile.open on a member the archive does not have *)
  | ParseError          (* ET.iterparse on a document that is not well formed *)
  | TypeError           (* comparison of a tz-naive with a tz-aware timestamp *)
  | ValueError.         (* to_datetime with errors='raise' on a bad string *)

Inductive result (A : Type) :=
  | Ok (a : A)
  | Raise (e : exn).
Global Arguments Ok {A} a.
Global Arguments Raise {A} e.

Definition bind {A B} (m : result A) (k : A → result B) : result B :=
  match m with Ok a => k a | Raise e => Raise e end.

(** [kw in s] on [str]: [kw] occurs in [s] as a contiguous substring. *)
Fixpoint str_in (kw s : string) : bool :=
  String.prefix kw s ||
  match s with
  | EmptyString => false
  | String _ s' => str_in kw s'
  end.

(** The same, in the words of the specification. *)
Definition is_substring (kw s : string) : Prop :=
  ∃ pre post, s = pre +:+ kw +:+ post.

(** A dict literal with string keys: insertion-ordered, values [str] or [None]. *)
Definition dict := list (string * option string).

Fixpoint dict_get (d : dict) (k : string) : option (option string) :=
  match d with
  | [] => None
  | (k', v) :: d' => if String.eqb k' k then Some v else dict_get d' k
  end.

Definition keys (d : dict) : list string := d.*1.

End Py.

(* ===================================================================== *)
(** ** xml.etree.ElementTree *)
(* ===================================================================== *)

Module ET.

(** A parsed document: an element has a tag, an attribute dict and children. *)
Inductive Element :=
  | Elem (tag : string) (attrib : gmap string string) (children : list Element).

Definition tag (e : Element) : string := let 'Elem t _ _ := e in t.
Definition attrib (e : Element) : gmap string string := let 'Elem _ a _ := e in a.
Definition children (e : Element) : list Element := let 'Elem _ _ c := e in c.

(** What the loop can observe of an element object: [elem.tag] and
    [elem.get].  Children, text and tail are never read by the script. *)
Record obj := Obj { obj_tag : string; obj_attrib : gmap string string }.

Definition obj_of (e : Element) : obj := Obj (tag e) (attrib e).

(** [elem.get(k)]. *)
Definition get (o : obj) (k : string) : option string := obj_attrib o !! k.

(** Elements in the order their start tags occur (document order). *)
Fixpoint preorder (e : Element) : list obj :=
  match e with
  | Elem t a cs => Obj t a :: flat_map preorder cs
  end.

(** Elements in the order their end tags occur. *)
Fixpoint postorder (e : Element) : list obj :=
  match e with
  | Elem t a cs => flat_map postorder cs ++ [Obj t a]
  end.

Definition size (e : Element) : nat := length (preorder e).

(** [iterparse(..., events=('start','end'))].  The parser allocates one
    object per element, when it meets the start tag; an object is named here
    by its allocation index, so that the two events of one element carry the
    same object, as they do in Python. *)
Inductive event := start | end_.

Fixpoint events (n : nat) (e : Element) : list (event * nat) :=
  match e with
  | Elem _ _ cs =>
      (start, n) ::
      (fix events_list (n : nat) (cs : list Element) : list (event * nat) :=
         match cs with
         | [] => []
         | c :: cs' => events n c ++ events_list (n + size c) cs'
         end) (S n) cs
      ++ [(end_, n)]
  end.

Fixpoint events_list (n : nat) (cs : list Element) : list (event * nat) :=
  match cs with
  | [] => []
  | c :: cs' => events n c ++ events_list (n + size c) cs'
  end.

(** The store of element objects, indexed by allocation order. *)
Definition store := list obj.

(** [elem.clear()]: drops the attributes (and the children, text and tail);
    the tag stays. *)
Definition clear (i : nat) (h : store) : store :=
  match h !! i with
  | Some o => <[i := Obj (obj_tag o) ∅]> h
  | None => h
  end.

End ET.

(* ===================================================================== *)
(** ** The streaming loop, lines 17-49 *)
(* ===================================================================== *)

Module Filter.
Import Py ET.

Definition sleep_keywords : list string := ["sleep"; "Sleep"; "SLEEP"].

(** [any(keyword in record_type for keyword in sleep_keywords)] *)
Definition any_keyword_in (record_type : string) : bool :=
  existsb (λ keyword, str_in keyword record_type) sleep_keywords.

(** The dict literal of lines 36-44. *)
Definition make_record (record_type : string) (elem : obj) : dict :=
  [ ("type", Some record_type);
    ("start_date", get elem "startDate");
    ("end_date", get elem "endDate");
    ("value", get elem "value");
    ("unit", get elem "unit");
    ("source_name", get elem "sourceName");
    ("creation_date", get elem "creationDate") ].

(** [record_type and any(...)]: [None] and [''] are falsy. *)
Definition truthy (record_type : option string) : bool :=
  match record_type with
  | Some s => negb (String.eqb s "")
  | None => false
  end.

Record loop_state := LoopState {
  heap : store;
  sleep_records : list dict
}.

(** One iteration of [for event, elem in context], lines 31-49; [root] is
    the object bound by [event, root = next(context)]. *)
Definition loop_body (root : nat) (st : loop_state) (ev : event * nat) : loop_state :=
  let '(event, elem) := ev in
  match event, heap st !! elem with
  | end_, Some o =>
      if String.eqb (obj_tag o) "Record" then
        let record_type := get o "type" in
        let recs :=
          match record_type with
          | Some ty =>
              if truthy record_type && any_keyword_in ty
              then sleep_records st ++ [make_record ty o]
              else sleep_records st
          | None => sleep_records st
          end in
        LoopState (clear root (clear elem (heap st))) recs
      else st
  | _, _ => st
  end.

(** Lines 26-49 on a well-formed document: the first event (the start of
    the root) is taken off the stream by [next(context)], the loop runs over
    the rest.  The store starts with every object of the document in it:
    the parser may have built objects ahead of the event being handled, and
    the loop reads an object only at its own end tag, so that allocating
    them all at once changes nothing it can observe. *)
Definition scan (doc : Element) : list dict :=
  match events 0 doc with
  | [] => []
  | (_, root) :: context =>
      sleep_records (foldl (loop_body root) (LoopState (preorder doc) []) context)
  end.

End Filter.

(* ===================================================================== *)
(** ** The fragment of pandas the script calls *)
(* ===================================================================== *)

Module Pandas.
Import Py.

(** A [Timestamp]: the nanoseconds of its wall clock since
    1970-01-01T00:00:00, and the UTC offset of its time zone, in nanoseconds
    ([None] for a tz-naive timestamp).  Nanoseconds are unbounded integers:
    the representable range depends on the resolution pandas picks and is
    not something the script controls. *)
Record Timestamp := Ts { wall : Z; utcoffset : option Z }.

(** The point in time a timestamp denotes, which is what pandas compares:
    UTC nanoseconds for a tz-aware timestamp, the wall clock for a naive one. *)
Definition instant (t : Timestamp) : Z := (wall t - default 0 (utcoffset t))%Z.

Definition aware (t : Timestamp) : bool :=
  match utcoffset t with Some _ => true | None => false end.

(** The values a column of this script can hold. *)
Inductive cell :=
  | PyNone                  (* None / NaN in an object column *)
  | Str (s : string)
  | NaT
  | Stamp (t : Timestamp).

Inductive dtype :=
  | object
  | datetime64 (tz : option Z).   (* datetime64[ns] / datetime64[ns, tz] *)

Definition UTC : option Z := Some 0%Z.

Record Series := MkSeries { dt : dtype; values : list cell }.

(** A frame: its columns, in order.  The index is the default range index. *)
Definition DataFrame := list (string * Series).

Definition columns (df : DataFrame) : list string := df.*1.

(** [df[col]] *)
Fixpoint getitem (df : DataFrame) (col : string) : option Series :=
  match df with
  | [] => None
  | (c, s) :: df' => if String.eqb c col then Some s else getitem df' col
  end.

(** [df[col] = s]: replaces the column in place, or appends a new one. *)
Fixpoint setitem (df : DataFrame) (col : string) (s : Series) : DataFrame :=
  match df with
  | [] => [(col, s)]
  | (c, s') :: df' =>
      if String.eqb c col then (c, s) :: df' else (c, s') :: setitem df' col s
  end.

(** [col in df.columns] *)
Definition has_column (df : DataFrame) (col : string) : bool :=
  existsb (String.eqb col) (columns df).

(** [len(df)] *)
Definition len (df : DataFrame) : nat :=
  match df with
  | [] => 0
  | (_, s) :: _ => length (values s)
  end.

(** [df.empty]: some axis has length 0. *)
Definition empty (df : DataFrame) : bool :=
  match df with
  | [] => true
  | _ => Nat.eqb (len df) 0
  end.

(** Row [i] of a frame, read across its columns. *)
Definition row (df : DataFrame) (i : nat) : list cell :=
  map (λ cs : string * Series, default PyNone (values cs.2 !! i)) df.

Definition rows (df : DataFrame) : list (list cell) :=
  map (row df) (seq 0 (len df)).

(** Keys in the order they are first seen. *)
Fixpoint first_seen (seen ks : list string) : list string :=
  match ks with
  | [] => []
  | k :: ks' =>
      if existsb (String.eqb k) seen then first_seen seen ks'
      else k :: first_seen (k :: seen) ks'
  end.

Definition cell_of (v : option (option string)) : cell :=
  match v with
  | Some (Some s) => Str s
  | _ => PyNone
  end.

(** [pd.DataFrame(records)] on a list of dicts: one object column per key,
    in first-seen order, one row per dict. *)
Definition of_records (records : list dict) : DataFrame :=
  map (λ k, (k, MkSeries object (map (λ d, cell_of (dict_get d k)) records)))
      (first_seen [] (flat_map keys records)).

(** [timedelta(days=d)] in nanoseconds. *)
Definition timedelta (days : Z) : Z := (days * 24 * 3600 * 1000000000)%Z.

(** [t - td]; [NaT - td] is [NaT].  The [OutOfBoundsDatetime] pandas raises
    when the result leaves the range of its 64-bit nanoseconds is not part
    of this model: results below are stated for runs that return. *)
Definition sub (c : cell) (td : Z) : cell :=
  match c with
  | Stamp t => Stamp (Ts (wall t - td) (utcoffset t))
  | _ => NaT
  end.

Definition stamps (vals : list cell) : list Timestamp :=
  omap (λ c, match c with Stamp t => Some t | _ => None end) vals.

(** Python refuses to order a naive and an aware timestamp. *)
Definition comparable (a b : Timestamp) : bool := Bool.eqb (aware a) (aware b).

Definition later (a b : Timestamp) : result Timestamp :=
  if comparable a b
  then Ok (if (instant a <? instant b)%Z then b else a)
  else Raise TypeError.

Fixpoint fold_later (acc : Timestamp) (ts : list Timestamp) : result Timestamp :=
  match ts with
  | [] => Ok acc
  | t :: ts' => bind (later acc t) (λ acc', fold_later acc' ts')
  end.

Definition earlier (a b : Timestamp) : result Timestamp :=
  if comparable a b
  then Ok (if (instant b <? instant a)%Z then b else a)
  else Raise TypeError.

Fixpoint fold_earlier (acc : Timestamp) (ts : list Timestamp) : result Timestamp :=
  match ts with
  | [] => Ok acc
  | t :: ts' => bind (earlier acc t) (λ acc', fold_earlier acc' ts')
  end.

(** [s.max()] on a datetime column: nulls are skipped, [NaT] when nothing
    is left.  (On an object column holding [NaT], pandas may raise where
    this function answers.) *)
Definition max (s : Series) : result cell :=
  match stamps (values s) with
  | [] => Ok NaT
  | t :: ts => bind (fold_later t ts) (λ m, Ok (Stamp m))
  end.

(** [s.min()] *)
Definition min (s : Series) : result cell :=
  match stamps (values s) with
  | [] => Ok NaT
  | t :: ts => bind (fold_earlier t ts) (λ m, Ok (Stamp m))
  end.

(** [c >= cutoff] for one value: false as soon as a side is null. *)
Definition ge (c cutoff : cell) : result bool :=
  match c, cutoff with
  | Stamp a, Stamp b =>
      if comparable a b then Ok (instant b <=? instant a)%Z else Raise TypeError
  | _, _ => Ok false
  end.

Fixpoint mapM {A B} (f : A → result B) (l : list A) : result (list B) :=
  match l with
  | [] => Ok []
  | a :: l' => bind (f a) (λ b, bind (mapM f l') (λ bs, Ok (b :: bs)))
  end.

(** [s >= cutoff]: the boolean mask. *)
Definition ge_mask (s : Series) (cutoff : cell) : result (list bool) :=
  mapM (λ c, ge c cutoff) (values s).

(** The entries of [l] at the positions where the mask is true. *)
Fixpoint select {A} (mask : list bool) (l : list A) : list A :=
  match mask, l with
  | b :: mask', a :: l' => if b then a :: select mask' l' else select mask' l'
  | _, _ => []
  end.

(** [df[mask]]: boolean indexing keeps the masked rows of every column. *)
Definition getitem_mask (df : DataFrame) (mask : list bool) : DataFrame :=
  map (λ cs : string * Series, (cs.1, MkSeries (dt cs.2) (select mask (values cs.2)))) df.

(** *** [pd.to_datetime] *)

Inductive errors := raise_ | coerce.
Inductive format := ISO8601.

Section to_datetime.
  (** The two string parsers of pandas are parameters of the model.  A parser
      answers [None] on a string it does not accept, [Some None] on a string
      that stands for a missing value (such as the empty string), and
      [Some (Some t)] on a timestamp; [t] carries the offset written in the
      string, if any.  The parser used when no format is given may look at
      the whole column (pandas guesses a format from its first value). *)
Variable parse_iso8601 : string → option (option Timestamp).
Variable parse_infer : list cell → string → option (option Timestamp).

  (** [utc=True] converts every timestamp to UTC (a naive one is taken to be
      UTC already); otherwise timestamps stay as they were parsed. *)
Definition localize (utc : bool) (t : Timestamp) : Timestamp :=
    if utc then Ts (instant t) UTC else t.

Definition convert (parser : string → option (option Timestamp))
      (utc : bool) (err : errors) (c : cell) : result cell :=
    match c with
    | PyNone | NaT => Ok NaT
    | Stamp t => Ok (Stamp (localize utc t))
    | Str s =>
        match parser s with
        | Some (Some t) => Ok (Stamp (localize utc t))
        | Some None => Ok NaT
        | None => match err with raise_ => Raise ValueError | coerce => Ok NaT end
        end
    end.

  (** The dtype of the result: [datetime64[ns, UTC]] under [utc=True];
      otherwise the common time zone of the values, and [object] when they
      do not have one (pandas 2; pandas 3 raises [ValueError] on mixed time
      zones instead, which this model does not do). *)
Definition infer_dtype (utc : bool) (vals : list cell) : dtype :=
    if utc then datetime64 UTC
    else match stamps vals with
         | [] => datetime64 None
         | t :: ts =>
             if forallb (λ t', bool_decide (utcoffset t' = utcoffset t)) ts
             then datetime64 (utcoffset t) else object
         end.

Definition to_datetime (arg : Series) (fmt : option format) (utc : bool)
      (err : errors) : result Series :=
    let parser :=
      match fmt with
      | Some ISO8601 => parse_iso8601
      | None => parse_infer (values arg)
      end in
    bind (mapM (convert parser utc err) (values arg))
         (λ vals, Ok (MkSeries (infer_dtype utc vals) vals)).
End to_datetime.

End Pandas.

(* ===================================================================== *)
(** ** [extract_sleep_data] *)
(* ===================================================================== *)

Module Pipeline.
Import Py ET Pandas.

(** The content of an archive member, as [iterparse] sees it: a document,
    or bytes that are not well-formed XML. *)
Inductive xml :=
  | WellFormed (doc : Element)
  | Malformed.

Inductive file :=
  | ZipArchive (members : gmap string xml)
  | Parquet (df : DataFrame)
  | Other.

(** What the script reads and changes: files by path, and standard output. *)
Record World := MkWorld {
  fs : gmap string file;
  stdout : list string
}.

Definition print (line : string) (w : World) : World :=
  MkWorld (fs w) (stdout w ++ [line]).

(** [df.to_parquet(path, index=False)]; the target is taken to be writable. *)
Definition to_parquet (df : DataFrame) (path : string) (w : World) : World :=
  MkWorld (<[path := Parquet df]> (fs w)) (stdout w).

Definition export_xml : string := "apple_health_export/export.xml".

(** Lines 17-49: open the archive, open the member, run the loop. *)
Definition read_records (w : World) (zip_path : string) : result (list dict) :=
  match fs w !! zip_path with
  | None => Raise FileNotFoundError
  | Some (ZipArchive members) =>
      match members !! export_xml with
      | None => Raise KeyError
      | Some Malformed => Raise ParseError
      | Some (WellFormed doc) => Ok (Filter.scan doc)
      end
  | Some _ => Raise BadZipFile
  end.

Definition date_columns : list string := ["start_date"; "end_date"; "creation_date"].

Definition no_sleep_data : string := "No sleep data found in the export.".
Definition no_recent_data : string := "No sleep data found in the last 30 days.".

Section pipeline.
Variable parse_iso8601 : string → option (option Timestamp).
Variable parse_infer : list cell → string → option (option Timestamp).
  (** [str(t)] for the timestamps of the summary line. *)
Variable str_of : cell → string.

Local Abbreviation to_datetime := (Pandas.to_datetime parse_iso8601 parse_infer).

  (** Lines 61-66, the body of the loop over [date_columns]. *)
Definition convert_column (df : DataFrame) (col : string) : result DataFrame :=
    if has_column df col then
      match getitem df col with
      | Some s =>
          match to_datetime s (Some ISO8601) true raise_ with
          | Ok s' => Ok (setitem df col s')
          | Raise _ =>
              (* Fallback to automatic parsing if ISO format fails *)
              bind (to_datetime s None false coerce) (λ s', Ok (setitem df col s'))
          end
      | None => Ok df
      end
    else Ok df.

Fixpoint convert_columns (df : DataFrame) (cols : list string) : result DataFrame :=
    match cols with
    | [] => Ok df
    | col :: cols' => bind (convert_column df col) (λ df', convert_columns df' cols')
    end.

  (** Lines 69-74. *)
Definition last_30_days (df : DataFrame) : result DataFrame :=
    if has_column df "start_date" then
      match getitem df "start_date" with
      | Some s =>
          bind (max s) (λ latest_date,
          let cutoff_date := sub latest_date (timedelta 30) in
          bind (ge_mask s cutoff_date) (λ mask,
          Ok (getitem_mask df mask)))
      | None => Ok df
      end
    else Ok df.

  (** Lines 83-85. *)
Definition report (df : DataFrame) (output_file : string) (w : World)
      : result unit * World :=
    let w := print ("Extracted " +:+ pretty (len df) +:+
                    " sleep records from the last 30 days") w in
    let w := print ("Data saved to: " +:+ output_file) w in
    match getitem df "start_date" with
    | Some s =>
        match min s, max s with
        | Ok lo, Ok hi =>
            (Ok (), print ("Date range: " +:+ str_of lo +:+ " to " +:+ str_of hi) w)
        | Raise e, _ | _, Raise e => (Raise e, w)
        end
    | None => (Raise KeyError, w)
    end.

  (** [extract_sleep_data(zip_path, output_file)]: the value returned
      ([None] or the frame), or the exception raised, and the world after. *)
Definition extract_sleep_data (w : World) (zip_path output_file : string)
      : result (option DataFrame) * World :=
    match read_records w zip_path with
    | Raise e => (Raise e, w)
    | Ok [] => (Ok None, print no_sleep_data w)
    | Ok sleep_records =>
        let df := of_records sleep_records in
        match bind (convert_columns df date_columns) last_30_days with
        | Raise e => (Raise e, w)
        | Ok df =>
            if empty df then (Ok None, print no_recent_data w)
            else
              let w := to_parquet df output_file w in
              match report df output_file w with
              | (Ok _, w) => (Ok (Some df), w)
              | (Raise e, w) => (Raise e, w)
              end
        end
    end.

  (** Lines 91-104, the script run as a program.  [head_repr] is the text
      [print(df.head())] writes. *)
Variable head_repr : DataFrame → string.

Definition main (w : World) : result unit * World :=
  let zip_path := "export.zip" in
  if bool_decide (is_Some (fs w !! zip_path)) then
    match extract_sleep_data w zip_path "sleep_data.parquet" with
    | (Raise e, w) => (Raise e, w)
    | (Ok None, w) => (Ok (), w)
    | (Ok (Some df), w) =>
        if negb (empty df)
        then (Ok (), print (head_repr df) (print (String (Ascii.ascii_of_nat 10) "Sample data:") w))
        else (Ok (), w)
    end
  else
    (Ok (),
     print "Please ensure export.zip is in the same directory or provide the full path."
       (print ("File not found: " +:+ zip_path) w)).

  (** The frame the window of lines 69-74 is applied to: the records read
      from the archive, loaded and with their dates converted. *)
Definition parsed_table (w : World) (zip_path : string) : result DataFrame :=
    bind (read_records w zip_path) (λ sleep_records,
    convert_columns (of_records sleep_records) date_columns).
End pipeline.

End Pipeline.

(* ===================================================================== *)
(** ** A reference instance of the date parsers *)
(* ===================================================================== *)

(** The theorems below hold for any pair of parsers.  The closed examples
    need one: this instance reads the ISO-8601 shapes Apple Health and the
    specification use ([2024-06-30T00:00:00Z], [2024-06-30 00:00:00 +0200],
    [2024-06-30]) and, when no format is given, also the US shape
    [06/30/2024 10:00:00].  On these strings it agrees with pandas. *)
Module Reference.
Import Py Pandas.

Definition codes (s : string) : list nat := map Ascii.nat_of_ascii (String.list_ascii_of_string s).

Definition digit (c : nat) : option Z :=
  if (48 <=? c) && (c <=? 57) then Some (Z.of_nat (c - 48)) else None.

(** Exactly [k] digits, read as a number. *)
Fixpoint take_digits (k : nat) (acc : Z) (cs : list nat) : option (Z * list nat) :=
  match k, cs with
  | O, _ => Some (acc, cs)
  | S k', c :: cs' => d ← digit c; take_digits k' (10 * acc + d)%Z cs'
  | S _, [] => None
  end.

Definition expect (ch : nat) (cs : list nat) : option (list nat) :=
  match cs with
  | c :: cs' => if c =? ch then Some cs' else None
  | [] => None
  end.

Definition optional (ch : nat) (cs : list nat) : list nat :=
  match cs with
  | c :: cs' => if c =? ch then cs' else cs
  | [] => cs
  end.

Definition is_leap (y : Z) : bool :=
  ((y mod 4 =? 0) && (negb (y mod 100 =? 0) || (y mod 400 =? 0)))%Z.

Definition days_in_month (y m : Z) : Z :=
  (if (m =? 2) then (if is_leap y then 29 else 28)
   else if (m =? 4) || (m =? 6) || (m =? 9) || (m =? 11) then 30
   else 31)%Z.

(** Days from 1970-01-01 to [y-m-d] in the proleptic Gregorian calendar. *)
Definition days_from_civil (y m d : Z) : Z :=
  (let y := if m <=? 2 then y - 1 else y in
   let era := y / 400 in
   let yoe := y - era * 400 in
   let doy := (153 * (if 2 <? m then m - 3 else m + 9) + 2) / 5 + d - 1 in
   let doe := yoe * 365 + yoe / 4 - yoe / 100 + doy in
   era * 146097 + doe - 719468)%Z.

Definition second : Z := 1000000000%Z.

Definition civil (y m d hh mm ss : Z) : option Z :=
  (if (1 <=? m) && (m <=? 12) && (1 <=? d) && (d <=? days_in_month y m)
      && (hh <? 24) && (mm <? 60) && (ss <? 60)
   then Some ((((days_from_civil y m d * 24 + hh) * 60 + mm) * 60 + ss) * second)
   else None)%Z.

(** [HH:MM:SS] *)
Definition clock (cs : list nat) : option (Z * Z * Z * list nat) :=
  '(hh, cs) ← take_digits 2 0%Z cs; cs ← expect 58 cs;
  '(mm, cs) ← take_digits 2 0%Z cs; cs ← expect 58 cs;
  '(ss, cs) ← take_digits 2 0%Z cs;
  Some (hh, mm, ss, cs).

(** Nothing (naive), [Z], or [+HH:MM] / [+HHMM] / [-HH:MM] / [-HHMM], after an
    optional space. *)
Definition zone (cs : list nat) : option (option Z) :=
  match optional 32 cs with
  | [] => Some None
  | c :: cs' =>
      if (c =? 90) then (match cs' with [] => Some (Some 0%Z) | _ => None end)
      else
        sgn ← (if c =? 43 then Some 1%Z else if c =? 45 then Some (-1)%Z else None);
        '(hh, cs) ← take_digits 2 0%Z cs';
        '(mm, cs) ← take_digits 2 0%Z (optional 58 cs);
        match cs with
        | [] => Some (Some (sgn * (hh * 3600 + mm * 60) * second)%Z)
        | _ => None
        end
  end.

(** The time of day and zone that may follow a date. *)
Definition time_and_zone (y m d : Z) (cs : list nat) : option Timestamp :=
  match cs with
  | [] => ns ← civil y m d 0 0 0; Some (Ts ns None)
  | c :: cs' =>
      if (c =? 84) || (c =? 32) then
        '(hh, mm, ss, cs) ← clock cs';
        tz ← zone cs;
        ns ← civil y m d hh mm ss;
        Some (Ts ns tz)
      else None
  end.

(** [YYYY-MM-DD], then [time_and_zone]. *)
Definition iso8601 (s : string) : option (option Timestamp) :=
  match codes s with
  | [] => Some None
  | cs =>
      t ← ('(y, cs) ← take_digits 4 0%Z cs; cs ← expect 45 cs;
           '(m, cs) ← take_digits 2 0%Z cs; cs ← expect 45 cs;
           '(d, cs) ← take_digits 2 0%Z cs;
           time_and_zone y m d cs);
      Some (Some t)
  end.

(** [MM/DD/YYYY], then [time_and_zone]. *)
Definition us_date (s : string) : option Timestamp :=
  '(m, cs) ← take_digits 2 0%Z (codes s); cs ← expect 47 cs;
  '(d, cs) ← take_digits 2 0%Z cs; cs ← expect 47 cs;
  '(y, cs) ← take_digits 4 0%Z cs;
  time_and_zone y m d cs.

(** Without a format: whatever [iso8601] reads, and the US shape. *)
Definition infer (column : list cell) (s : string) : option (option Timestamp) :=
  match iso8601 s with
  | Some r => Some r
  | None => t ← us_date s; Some (Some t)
  end.

(** A rendering of timestamps for the summary line. *)
Definition str_of (c : cell) : string :=
  match c with
  | Stamp t => pretty (wall t)
  | _ => "NaT"
  end.

Definition head_repr (df : DataFrame) : string := "".

(** An element with attributes given as a list. *)
Definition element (t : string) (attrs : list (string * string))
    (cs : list ET.Element) : ET.Element :=
  ET.Elem t (list_to_map attrs) cs.

Definition record (type : string) (attrs : list (string * string))
    (cs : list ET.Element) : ET.Element :=
  element "Record" (("type", type) :: attrs) cs.

(** The five types of the end-to-end example, with given start dates. *)
Definition five_records (d0 d1 d2 d3 d4 : string) : ET.Element :=
  element "HealthData" []
    [ record "HKCategoryTypeIdentifierSleepAnalysis" [("startDate", d0)] [];
      record "HKQuantityTypeIdentifierStepCount" [("startDate", d1)] [];
      record "SleepSession" [("startDate", d2)] [];
      record "sleep_efficiency" [("startDate", d3)] [];
      record "HeartRate" [("startDate", d4)] [] ].

(** 2024-06-30T00:00:00Z and 2024-05-31T00:00:00Z, in nanoseconds. *)
Definition jun_30_2024 : Z := 1719705600000000000%Z.
Definition may_31_2024 : Z := 1717113600000000000%Z.

(** Start dates every ten days over the 40 days that end on 2024-06-30. *)
Definition every_ten_days : ET.Element :=
  five_records "2024-05-21T00:00:00Z" "2024-05-31T00:00:00Z"
               "2024-06-10T00:00:00Z" "2024-06-20T00:00:00Z"
               "2024-06-30T00:00:00Z".

(** The same 40 days, the latest date on a sleep record. *)
Definition latest_on_sleep : ET.Element :=
  five_records "2024-06-30T00:00:00Z" "2024-05-21T00:00:00Z"
               "2024-05-31T00:00:00Z" "2024-05-25T00:00:00Z"
               "2024-06-10T00:00:00Z".

(** A document whose root is itself a sleep record and holds a record. *)
Definition record_root : ET.Element :=
  record "SleepSession" [("startDate", "2024-06-30T00:00:00Z")]
    [ record "HeartRate" [] [] ].

(** A sleep record inside a sleep record. *)
Definition outer_record : ET.obj :=
  ET.Obj "Record" (list_to_map [("type", "HKCategoryTypeIdentifierSleepAnalysis")]).
Definition inner_record : ET.obj :=
  ET.Obj "Record" (list_to_map [("type", "SleepSession")]).
Definition nested_records : ET.Element :=
  element "HealthData" []
    [ record "HKCategoryTypeIdentifierSleepAnalysis" []
        [ record "SleepSession" [] [] ] ].

(** One sleep record whose start date is not ISO-8601 but is a date. *)
Definition us_dated : ET.Element :=
  element "HealthData" []
    [ record "HKCategoryTypeIdentifierSleepAnalysis"
        [("startDate", "06/30/2024 10:00:00"); ("endDate", "2024-06-30T18:00:00Z");
         ("value", "HKCategoryValueSleepAnalysisAsleep"); ("sourceName", "Watch")] [] ].

(** Sleep records without a usable start date: one absent, one garbled. *)
Definition undated : ET.Element :=
  element "HealthData" []
    [ record "SleepSession" [("value", "1")] [];
      record "sleep_efficiency" [("startDate", "yesterday")] [] ].


(** A file system holding one export archive at [export.zip]. *)
Definition archive (doc : ET.Element) : Pipeline.World :=
  Pipeline.MkWorld
    {[ "export.zip" := Pipeline.ZipArchive
         {[ Pipeline.export_xml := Pipeline.WellFormed doc ]} ]} [].

Definition run (doc : ET.Element) : result (option DataFrame) * Pipeline.World :=
  Pipeline.extract_sleep_data iso8601 infer str_of (archive doc)
    "export.zip" "sleep_data.parquet".

End Reference.

(* ===================================================================== *)
(** ** The specification's vocabulary *)
(* ===================================================================== *)

Module Spec.
Import Py ET Pandas Pipeline.

(** An element is a sleep record when its tag is [Record] and its [type]
    attribute is present and contains one of the three keywords. *)
Definition sleep_typed (o : obj) : Prop :=
  obj_tag o = "Record" ∧
  ∃ ty, get o "type" = Some ty ∧
        (is_substring "sleep" ty ∨ is_substring "Sleep" ty ∨ is_substring "SLEEP" ty).

(** The SleepRecord of an element: its attributes, copied verbatim, an
    absent attribute giving [None]. *)
Definition record_of (o : obj) : dict :=
  [ ("type", get o "type");
    ("start_date", get o "startDate");
    ("end_date", get o "endDate");
    ("value", get o "value");
    ("unit", get o "unit");
    ("source_name", get o "sourceName");
    ("creation_date", get o "creationDate") ].

(** The fields of a SleepRecord other than [type], with the attribute each
    is read from. *)
Definition field_attributes : list (string * string) :=
  [ ("start_date", "startDate"); ("end_date", "endDate"); ("value", "value");
    ("unit", "unit"); ("source_name", "sourceName");
    ("creation_date", "creationDate") ].

(** The elements of a document other than its root, by end tag. *)
Definition descendants (doc : Element) : list obj :=
  flat_map postorder (children doc).

Definition is_record (o : obj) : bool := String.eqb (obj_tag o) "Record".

(** Some element of the subtree is a [Record]. *)
Definition has_record (e : Element) : bool := existsb is_record (preorder e).

(** No [Record] element lies inside another [Record] element. *)
Fixpoint records_flat (e : Element) : bool :=
  match e with
  | Elem t _ cs =>
      (if String.eqb t "Record" then forallb (λ c, negb (has_record c)) cs else true)
      && forallb records_flat cs
  end.

(** What the loop body does with one element whose attributes are intact. *)
Definition yield (o : obj) : option dict :=
  if is_record o then
    match get o "type" with
    | Some ty =>
        if Filter.truthy (Some ty) && Filter.any_keyword_in ty
        then Some (Filter.make_record ty o) else None
    | None => None
    end
  else None.

(** An object after [clear()]. *)
Definition cleared (o : obj) : obj := Obj (obj_tag o) ∅.

(** The root object once the loop has met [b] = some [Record] end tag. *)
Definition root_after (b : bool) (r : obj) : obj := if b then cleared r else r.

(** [keep] marks, position by position, the sleep records among [l]. *)
Definition marks_sleep_typed (keep : list bool) (l : list obj) : Prop :=
  length keep = length l ∧
  ∀ i o, l !! i = Some o → (keep !! i = Some true ↔ sleep_typed o).

(** The loop over the events of a subtree that is not the root: it appends
    what the subtree's elements yield, in end-tag order, touches no object
    outside the subtree except the root, and clears the root as soon as the
    subtree holds a [Record]. *)
Definition subtree_run (e : Element) : Prop :=
  ∀ r mid post recs,
    ∃ seg, length seg = size e ∧
      foldl (Filter.loop_body 0)
            (Filter.LoopState (r :: mid ++ preorder e ++ post) recs)
            (events (S (length mid)) e)
      = Filter.LoopState (root_after (has_record e) r :: mid ++ seg ++ post)
                         (recs ++ omap yield (postorder e)).

(** [m] is the latest of the instants [l]. *)
Definition latest (m : Z) (l : list Z) : Prop :=
  m ∈ l ∧ ∀ x, x ∈ l → (x <= m)%Z.

(** The instants of the non-null values of a column. *)
Definition instants (s : Series) : list Z := instant <$> stamps (values s).

(** 30 days of 24 hours, in nanoseconds. *)
Definition hours_720 : Z := (720 * 3600 * 1000000000)%Z.

(** Every column has one value per row. *)
Definition rectangular (df : DataFrame) : Prop :=
  Forall (λ cs : string * Series, length (values cs.2) = len df) df.

(** The timestamps of a column can be compared with one another: they are
    all tz-aware or all tz-naive. *)
Definition uniform (vals : list cell) : Prop :=
  ∀ t t', t ∈ stamps vals → t' ∈ stamps vals → aware t = aware t'.

(** A frame without its first row. *)
Definition behead (df : DataFrame) : DataFrame :=
  map (λ cs : string * Series, (cs.1, MkSeries (dt cs.2) (tail (values cs.2)))) df.

(** The seven columns of the output table. *)
Definition seven_columns : list string :=
  ["type"; "start_date"; "end_date"; "value"; "unit"; "source_name"; "creation_date"].

(** The object column [pd.DataFrame] builds for key [k]. *)
Definition raw_column (records : list dict) (k : string) : Series :=
  MkSeries object (map (λ d, cell_of (dict_get d k)) records).

(** The frame of the records once its date columns are [s1], [s2], [s3]. *)
Definition parsed_frame (records : list dict) (s1 s2 s3 : Series) : DataFrame :=
  [ ("type", raw_column records "type");
    ("start_date", s1);
    ("end_date", s2);
    ("value", raw_column records "value");
    ("unit", raw_column records "unit");
    ("source_name", raw_column records "source_name");
    ("creation_date", s3) ].

Section parsing.
Variable parse_iso8601 : string → option (option Timestamp).
Variable parse_infer : list cell → string → option (option Timestamp).

(** What [errors='coerce'] makes of one value. *)
Definition coerced (parser : string → option (option Timestamp)) (utc : bool)
    (c : cell) : cell :=
  match c with
  | PyNone | NaT => NaT
  | Stamp t => Stamp (localize utc t)
  | Str s =>
      match parser s with
      | Some (Some t) => Stamp (localize utc t)
      | _ => NaT
      end
  end.

(** The column the strict call gives when no value is refused. *)
Definition strict_column (s : Series) : Series :=
  MkSeries (datetime64 UTC) (coerced parse_iso8601 true <$> values s).

(** The column the fallback call gives. *)
Definition fallback_column (s : Series) : Series :=
  let vals := coerced (parse_infer (values s)) false <$> values s in
  MkSeries (infer_dtype false vals) vals.

(** A value the strict format refuses. *)
Definition refused (c : cell) : Prop :=
  ∃ str, c = Str str ∧ parse_iso8601 str = None.

(** Lines 62-66 on one column: the strict column when no value is refused,
    the fallback column of the whole column otherwise. *)
Definition date_parse (s s' : Series) : Prop :=
  (Forall (λ c, ¬ refused c) (values s) ∧ s' = strict_column s) ∨
  (Exists refused (values s) ∧ s' = fallback_column s).
End parsing.

(** The ways opening the archive member fails. *)
Inductive open_fails (w : World) (zip_path : string) : exn → Prop :=
  | path_missing :
      fs w !! zip_path = None → open_fails w zip_path FileNotFoundError
  | not_an_archive f :
      fs w !! zip_path = Some f → (∀ members, f ≠ ZipArchive members) →
      open_fails w zip_path BadZipFile
  | entry_missing members :
      fs w !! zip_path = Some (ZipArchive members) →
      members !! export_xml = None →
      open_fails w zip_path KeyError.

End Spec.

(* ===================================================================== *)
(** ** Sample runs *)
(* ===================================================================== *)

(** The sample documents of [Reference], run through the pipeline with the
    reference parsers: the frame returned, and the world left behind. *)
Module Samples.
Import Py Pandas Pipeline.

Definition frame_of (r : result (option DataFrame) * World) : DataFrame :=
  match r.1 with
  | Ok (Some df) => df
  | _ => []
  end.

Definition parsed (doc : ET.Element) : result DataFrame :=
  Pipeline.parsed_table Reference.iso8601 Reference.infer
    (Reference.archive doc) "export.zip".

Definition table_of (r : result DataFrame) : DataFrame :=
  match r with
  | Ok df => df
  | Raise _ => []
  end.

Definition every_ten_days_frame : DataFrame :=
  Eval vm_compute in frame_of (Reference.run Reference.every_ten_days).
Definition every_ten_days_world : World :=
  Eval vm_compute in (Reference.run Reference.every_ten_days).2.

Definition latest_on_sleep_frame : DataFrame :=
  Eval vm_compute in frame_of (Reference.run Reference.latest_on_sleep).
Definition latest_on_sleep_world : World :=
  Eval vm_compute in (Reference.run Reference.latest_on_sleep).2.

Definition us_dated_frame : DataFrame :=
  Eval vm_compute in frame_of (Reference.run Reference.us_dated).
Definition us_dated_world : World :=
  Eval vm_compute in (Reference.run Reference.us_dated).2.

Definition undated_table : DataFrame :=
  Eval vm_compute in table_of (parsed Reference.undated).

(** A world whose [export.zip] is not a zip archive. *)
Definition not_a_zip : World := MkWorld {[ "export.zip" := Other ]} [].

End Samples.

(* ===================================================================== *)
(** ** Vocabulary for whole runs *)
(* ===================================================================== *)

Module Runs.
Import Py Pandas Pipeline.

(** [m] is the earliest of the instants [l]. *)
Definition earliest (m : Z) (l : list Z) : Prop :=
  m ∈ l ∧ ∀ x, x ∈ l → (m <= x)%Z.

(** The three lines of lines 83-85. *)
Definition count_line (df : DataFrame) : string :=
  "Extracted " +:+ pretty (len df) +:+ " sleep records from the last 30 days".
Definition saved_line (output_file : string) : string :=
  "Data saved to: " +:+ output_file.
Definition range_line (str_of : cell → string) (lo hi : cell) : string :=
  "Date range: " +:+ str_of lo +:+ " to " +:+ str_of hi.

(** The world after a table was written and reported. *)
Definition written (str_of : cell → string) (df : DataFrame) (output_file : string)
    (lo hi : cell) (w : World) : World :=
  print (range_line str_of lo hi)
    (print (saved_line output_file)
       (print (count_line df) (to_parquet df output_file w))).

(** The two lines of [main] when the archive is absent. *)
Definition file_not_found : list string :=
  [ "File not found: export.zip";
    "Please ensure export.zip is in the same directory or provide the full path." ].

(** A column of a frame restricted to a mask. *)
Definition masked (mask : list bool) (s : Series) : Series :=
  MkSeries (dt s) (select mask (values s)).

(** A cell holds a type that contains a sleep keyword. *)
Definition sleep_cell (c : cell) : Prop :=
  ∃ ty, c = Str ty ∧
        (is_substring "sleep" ty ∨ is_substring "Sleep" ty ∨ is_substring "SLEEP" ty).

(** The reference run with the output written over the archive itself. *)
Definition over_archive : result (option DataFrame) * World :=
  Eval vm_compute in
    Pipeline.extract_sleep_data Reference.iso8601 Reference.infer Reference.str_of
      (Reference.archive Reference.latest_on_sleep) "export.zip" "export.zip".

(** The parsed table of the reference run on [latest_on_sleep], and its
    [start_date] column. *)
Definition latest_on_sleep_table : DataFrame :=
  Eval vm_compute in Samples.table_of (Samples.parsed Reference.latest_on_sleep).
Definition latest_on_sleep_dates : Series :=
  Eval vm_compute in
    match getitem latest_on_sleep_table "start_date" with
    | Some s => s
    | None => MkSeries object []
    end.

End Runs.

(* ===================================================================== *)
(** * Properties *)
(* ===================================================================== *)

(** ** Substring test *)

Section strings.
Import Py.

Lemma append_cons (c : Ascii.ascii) (s t : string) :
  String c s +:+ t = String c (s +:+ t).
Proof. reflexivity. Qed.

Lemma append_nil (t : string) : "" +:+ t = t.
Proof. reflexivity. Qed.

Lemma prefix_app (kw s : string) :
  String.prefix kw s = true ↔ ∃ post, s = kw +:+ post.
Proof.
  revert s. induction kw as [|a kw IH]; intros s; simpl.
  - destruct s; split; eauto.
  - destruct s as [|b s]; simpl.
    + split; [discriminate | intros [post H]; discriminate].
    + destruct (Ascii.ascii_dec a b) as [->|Hne].
      * rewrite IH. split; intros [post H]; exists post;
          rewrite ?append_cons in *; congruence.
      * split; [discriminate | intros [post H]; rewrite append_cons in H; congruence].
Qed.

Lemma str_in_cons (kw : string) (c : Ascii.ascii) (s : string) :
  str_in kw (String c s) = String.prefix kw (String c s) || str_in kw s.
Proof. reflexivity. Qed.

Lemma str_in_substring (kw s : string) :
  str_in kw s = true ↔ is_substring kw s.
Proof.
  unfold is_substring. induction s as [|c s IH].
  - change (str_in kw "") with (String.prefix kw "" || false).
    rewrite orb_false_r, prefix_app. split.
    + intros [post H]. exists "", post. exact H.
    + intros ([|? pre] & post & H); [exists post; exact H | discriminate].
  - rewrite str_in_cons, orb_true_iff, IH, prefix_app. split.
    + intros [[post H] | (pre & post & H)].
      * exists "", post. exact H.
      * exists (String c pre), post. rewrite append_cons. congruence.
    + intros ([|c' pre] & post & H).
      * left. exists post. exact H.
      * right. exists pre, post. rewrite append_cons in H. congruence.
Qed.

Lemma substring_nonempty (kw s : string) :
  kw ≠ "" → is_substring kw s → s ≠ "".
Proof.
  intros Hkw (pre & post & ->) H.
  destruct pre; [destruct kw; [congruence | discriminate] | discriminate].
Qed.

End strings.

(** ** The streaming loop *)

Section scan.
Import Py ET Filter Spec.

Lemma Element_induction (P : Element → Prop) :
  (∀ t a cs, Forall P cs → P (Elem t a cs)) → ∀ e, P e.
Proof.
  intros H. fix IH 1. intros [t a cs]. apply H.
  induction cs as [|c cs IHcs]; constructor; [apply IH | exact IHcs].
Qed.

Lemma events_unfold n t a cs :
  events n (Elem t a cs) = (start, n) :: events_list (S n) cs ++ [(end_, n)].
Proof. reflexivity. Qed.

Lemma has_record_unfold t a cs :
  has_record (Elem t a cs) = is_record (Obj t a) || existsb has_record cs.
Proof.
  unfold has_record. simpl. f_equal.
  induction cs as [|c cs IH]; simpl; [reflexivity|].
  rewrite existsb_app, IH. reflexivity.
Qed.

Lemma root_after_twice b1 b2 r :
  root_after b2 (root_after b1 r) = root_after (b1 || b2) r.
Proof. destruct b1, b2; reflexivity. Qed.

Lemma clear_root r rest : clear 0 (r :: rest) = cleared r :: rest.
Proof. reflexivity. Qed.

Lemma clear_middle r mid o post :
  clear (S (length mid)) (r :: mid ++ o :: post) = r :: mid ++ cleared o :: post.
Proof.
  unfold clear. simpl.
  rewrite list_lookup_middle by reflexivity.
  rewrite insert_app_r_alt by lia.
  rewrite Nat.sub_diag. reflexivity.
Qed.

Lemma yield_cleared o : yield (cleared o) = None.
Proof. unfold yield, get. simpl. rewrite lookup_empty. destruct (is_record _); reflexivity. Qed.

(** The loop body at an end tag, on an element whose object is [o]. *)
Lemma loop_body_end st n o :
  heap st !! n = Some o →
  loop_body 0 st (end_, n) =
    if is_record o
    then LoopState (clear 0 (clear n (heap st))) (sleep_records st ++ option_list (yield o))
    else st.
Proof.
  intros H. unfold loop_body, yield, is_record. rewrite H.
  destruct (String.eqb (obj_tag o) "Record"); [|reflexivity].
  destruct (get o "type") as [ty|]; simpl; [|rewrite app_nil_r; reflexivity].
  destruct (_ && _); simpl; [reflexivity | rewrite app_nil_r; reflexivity].
Qed.

Lemma loop_body_start root st n : loop_body root st (start, n) = st.
Proof. reflexivity. Qed.

Local Arguments loop_body : simpl never.

Lemma children_run cs :
  Forall subtree_run cs →
  ∀ r mid post recs,
    ∃ seg, length seg = length (flat_map preorder cs) ∧
      foldl (loop_body 0) (LoopState (r :: mid ++ flat_map preorder cs ++ post) recs)
            (events_list (S (length mid)) cs)
      = LoopState (root_after (existsb has_record cs) r :: mid ++ seg ++ post)
                  (recs ++ omap yield (flat_map postorder cs)).
Proof.
  induction 1 as [|c cs Hc _ IH]; intros r mid post recs.
  - exists []. simpl. rewrite app_nil_r. split; reflexivity.
  - simpl. rewrite foldl_app, <- (app_assoc (preorder c)).
    destruct (Hc r mid (flat_map preorder cs ++ post) recs) as (seg1 & Hlen1 & ->).
    specialize (IH (root_after (has_record c) r) (mid ++ seg1) post
                   (recs ++ omap yield (postorder c))).
    destruct IH as (seg2 & Hlen2 & IH).
    rewrite length_app, Hlen1 in IH.
    rewrite <- (app_assoc mid seg1) in IH.
    change (S (length mid) + size c) with (S (length mid + size c)). rewrite IH.
    exists (seg1 ++ seg2). split.
    + rewrite !length_app. unfold size in Hlen1. lia.
    + rewrite root_after_twice, omap_app, <- !app_assoc. reflexivity.
Qed.

Lemma subtree_runs e : subtree_run e.
Proof.
  induction e as [t a cs IH] using Element_induction.
  intros r mid post recs.
  rewrite events_unfold, has_record_unfold. simpl preorder. simpl postorder.
  change (foldl ?f ?s (?x :: ?l)) with (foldl f (f s x) l).
  rewrite loop_body_start, foldl_app.
  pose proof (children_run cs IH r (mid ++ [Obj t a]) post recs) as (seg & Hlen & Hrun).
  rewrite length_app in Hrun. simpl in Hrun. rewrite Nat.add_1_r in Hrun.
  rewrite <- (app_assoc mid [Obj t a]) in Hrun. simpl in Hrun.
  simpl app. rewrite Hrun. clear Hrun. simpl foldl.
  rewrite (loop_body_end _ _ (Obj t a)).
  2:{ simpl. rewrite <- app_assoc. simpl. apply list_lookup_middle. reflexivity. }
  rewrite omap_app. simpl omap.
  destruct (is_record (Obj t a)) eqn:Hrec; simpl.
  - exists (cleared (Obj t a) :: seg). split; [simpl; unfold size; simpl; lia|].
    rewrite <- (app_assoc mid [Obj t a]). simpl.
    rewrite clear_middle, clear_root.
    destruct (existsb has_record cs); simpl;
      destruct (yield (Obj t a)); simpl; rewrite <- ?app_assoc; reflexivity.
  - exists (Obj t a :: seg). split; [simpl; unfold size; simpl; lia|].
    rewrite <- (app_assoc mid [Obj t a]). simpl.
    unfold yield. rewrite Hrec. simpl. rewrite app_nil_r. reflexivity.
Qed.

(** The loop as a function of the document: every element other than the
    root yields on its own attributes; the root yields on what is left of
    its attributes after the [root.clear()] of earlier iterations. *)
Lemma scan_yield doc :
  scan doc = omap yield (descendants doc)
             ++ option_list (yield (root_after (existsb has_record (children doc)) (obj_of doc))).
Proof.
  destruct doc as [t a cs]. unfold scan, descendants. rewrite events_unfold.
  simpl children. simpl preorder. rewrite foldl_app.
  pose proof (children_run cs) as H.
  specialize (H ltac:(apply Forall_forall; intros; apply subtree_runs) (Obj t a) [] [] []).
  destruct H as (seg & Hlen & H). simpl in H. rewrite app_nil_r in H.
  rewrite H. simpl foldl.
  rewrite (loop_body_end _ _ (root_after (existsb has_record cs) (Obj t a))) by reflexivity.
  unfold obj_of. simpl tag. simpl attrib.
  destruct (is_record _) eqn:Hrec; simpl; [reflexivity|].
  assert (yield (root_after (existsb has_record cs) (Obj t a)) = None) as ->
    by (unfold yield; rewrite Hrec; reflexivity).
  simpl. rewrite app_nil_r. reflexivity.
Qed.

Lemma any_keyword_in_spec ty :
  any_keyword_in ty = true ↔
  is_substring "sleep" ty ∨ is_substring "Sleep" ty ∨ is_substring "SLEEP" ty.
Proof.
  unfold any_keyword_in, sleep_keywords. simpl.
  rewrite !orb_true_iff, !str_in_substring. intuition discriminate.
Qed.

Lemma keyword_truthy ty : any_keyword_in ty = true → truthy (Some ty) = true.
Proof.
  intros H%any_keyword_in_spec. simpl.
  assert (ty ≠ "") as Hne.
  { destruct H as [H|[H|H]]; revert H; apply substring_nonempty; discriminate. }
  destruct (String.eqb_spec ty ""); [contradiction | reflexivity].
Qed.

Lemma yield_Some o d : yield o = Some d ↔ sleep_typed o ∧ d = record_of o.
Proof.
  unfold yield, sleep_typed, is_record.
  destruct (String.eqb_spec (obj_tag o) "Record") as [Ht|Ht].
  - destruct (get o "type") as [ty|] eqn:Hty.
    + destruct (any_keyword_in ty) eqn:Hkw.
      * rewrite (keyword_truthy ty Hkw). simpl.
        apply any_keyword_in_spec in Hkw.
        unfold make_record, record_of. rewrite Hty.
        split; [intros [= <-]; eauto 6 | intros [_ ->]; reflexivity].
      * rewrite andb_false_r. split; [discriminate|].
        intros [(_ & ty' & [= <-] & H) _].
        apply any_keyword_in_spec in H. congruence.
    + split; [discriminate | intros [(_ & ty & H & _) _]; discriminate].
  - split; [discriminate | intros [[H _] _]; contradiction].
Qed.

Lemma yield_is_Some o : is_Some (yield o) ↔ sleep_typed o.
Proof.
  split.
  - intros [d H]. apply yield_Some in H. tauto.
  - intros H. exists (record_of o). apply yield_Some. auto.
Qed.

Lemma yield_None o : yield o = None ↔ ¬ sleep_typed o.
Proof.
  rewrite <- yield_is_Some, eq_None_not_Some. reflexivity.
Qed.

Lemma omap_cons {A B} (f : A → option B) (x : A) (l : list A) :
  omap f (x :: l) = option_list (f x) ++ omap f l.
Proof. simpl. destruct (f x); reflexivity. Qed.

(** [omap yield] keeps exactly the sleep records, as their [record_of]. *)
Lemma omap_yield_select (l : list obj) :
  ∃ keep, marks_sleep_typed keep l ∧
          omap yield l = record_of <$> Pandas.select keep l.
Proof.
  induction l as [|o l (keep & [Hlen Hkeep] & IH)].
  - exists []. repeat split; intros; simplify_eq/=.
  - destruct (yield o) as [d|] eqn:Hy.
    + exists (true :: keep). apply yield_Some in Hy as [Hs ->].
      assert (yield o = Some (record_of o)) as Hy by (apply yield_Some; auto).
      split; [split|].
      * simpl. lia.
      * intros [|i] o' H; simpl in *; [|apply Hkeep, H].
        injection H as <-. tauto.
      * rewrite omap_cons, Hy, IH. reflexivity.
    + exists (false :: keep). pose proof Hy as Hn%yield_None.
      split; [split|].
      * simpl. lia.
      * intros [|i] o' H; simpl in *; [|apply Hkeep, H].
        injection H as <-. split; [discriminate | contradiction].
      * rewrite omap_cons, Hy, IH. reflexivity.
Qed.

Lemma elem_of_postorder e o : o ∈ postorder e ↔ o ∈ preorder e.
Proof.
  induction e as [t a cs IH] using Element_induction. simpl.
  rewrite elem_of_app, list_elem_of_singleton, elem_of_cons.
  assert (o ∈ flat_map postorder cs ↔ o ∈ flat_map preorder cs) as ->; [|tauto].
  induction IH as [|c cs Hc _ IHcs]; simpl; [reflexivity|].
  rewrite !elem_of_app, Hc, IHcs. reflexivity.
Qed.

Lemma descendants_preorder doc o : o ∈ descendants doc → o ∈ preorder doc.
Proof.
  destruct doc as [t a cs]. unfold descendants. simpl. intros H.
  apply elem_of_cons. right.
  induction cs as [|c cs IH]; simpl in *; [exact H|].
  apply elem_of_app in H as [H|H]; apply elem_of_app;
    [left; apply elem_of_postorder, H | right; apply IH, H].
Qed.

Lemma root_preorder doc : obj_of doc ∈ preorder doc.
Proof. destruct doc. simpl. apply elem_of_cons. left. reflexivity. Qed.

(** Every record the loop appends is the [record_of] of a sleep record
    of the document. *)
Lemma scan_sound doc r :
  r ∈ scan doc → ∃ o, o ∈ preorder doc ∧ sleep_typed o ∧ r = record_of o.
Proof.
  rewrite scan_yield, elem_of_app. intros [H|H].
  - apply list_elem_of_omap in H as (o & Ho & Hy).
    apply yield_Some in Hy as [Hs ->].
    exists o. auto using descendants_preorder.
  - destruct (existsb has_record (children doc)); simpl in H.
    + rewrite yield_cleared in H. simpl in H. inversion H.
    + destruct (yield (obj_of doc)) as [d|] eqn:Hy; simpl in H; [|inversion H].
      apply list_elem_of_singleton in H as ->.
      apply yield_Some in Hy as [Hs ->].
      exists (obj_of doc). auto using root_preorder.
Qed.

(** Every sleep record other than the root is appended. *)
Lemma scan_complete doc o :
  o ∈ descendants doc → sleep_typed o → record_of o ∈ scan doc.
Proof.
  intros Ho Hs. rewrite scan_yield. apply elem_of_app. left.
  apply list_elem_of_omap. exists o. split; [exact Ho|].
  apply yield_Some. auto.
Qed.

End scan.

(** ** Document order *)

Section order.
Import Py ET Filter Spec.

Lemma yield_not_record o : is_record o = false → yield o = None.
Proof. unfold yield. intros ->. reflexivity. Qed.

Lemma omap_yield_no_record (l : list obj) :
  existsb is_record l = false → omap yield l = [].
Proof.
  induction l as [|o l IH]; [reflexivity|]. simpl existsb.
  intros [Ho Hl]%orb_false_elim. rewrite omap_cons, yield_not_record, IH; auto.
Qed.

Lemma existsb_postorder e :
  existsb is_record (postorder e) = existsb is_record (preorder e).
Proof.
  induction e as [t a cs IH] using Element_induction. simpl.
  rewrite existsb_app. simpl. rewrite orb_false_r, orb_comm. f_equal.
  induction IH as [|c cs Hc _ IHcs]; simpl; [reflexivity|].
  rewrite !existsb_app, Hc, IHcs. reflexivity.
Qed.

Lemma no_record_children (f : Element → list obj) cs :
  (∀ c, existsb is_record (f c) = has_record c) →
  forallb (λ c, negb (has_record c)) cs = true →
  omap yield (flat_map f cs) = [].
Proof.
  intros Hf. induction cs as [|c cs IH]; simpl; [reflexivity|].
  intros [Hc Hcs]%andb_prop. rewrite omap_app, IH by exact Hcs.
  rewrite omap_yield_no_record; [reflexivity|].
  rewrite Hf. destruct (has_record c); [discriminate | reflexivity].
Qed.

Lemma no_record_existsb cs :
  forallb (λ c, negb (has_record c)) cs = true → existsb has_record cs = false.
Proof.
  induction cs as [|c cs IH]; simpl; [reflexivity|].
  intros [Hc Hcs]%andb_prop. rewrite IH by exact Hcs.
  destruct (has_record c); [discriminate | reflexivity].
Qed.

(** Without nesting of records, end-tag order and start-tag order list the
    same records in the same order. *)
Lemma flat_postorder e :
  records_flat e = true → omap yield (postorder e) = omap yield (preorder e).
Proof.
  induction e as [t a cs IH] using Element_induction.
  simpl. intros [Hrec Hcs]%andb_prop.
  rewrite omap_app, omap_cons. simpl omap.
  destruct (String.eqb t "Record") eqn:Ht.
  - rewrite (no_record_children postorder), (no_record_children preorder);
      auto using existsb_postorder.
    rewrite !app_nil_r. reflexivity.
  - rewrite (yield_not_record (Obj t a)) by exact Ht. simpl. rewrite app_nil_r.
    clear Hrec. induction IH as [|c cs Hc _ IHcs]; simpl in *; [reflexivity|].
    apply andb_prop in Hcs as [H1 H2].
    rewrite !omap_app, Hc, IHcs; auto.
Qed.

Lemma flat_children cs :
  forallb records_flat cs = true →
  omap yield (flat_map postorder cs) = omap yield (flat_map preorder cs).
Proof.
  induction cs as [|c cs IH]; simpl; [reflexivity|].
  intros [H1 H2]%andb_prop. rewrite !omap_app, flat_postorder, IH; auto.
Qed.

Lemma scan_flat doc :
  records_flat doc = true → scan doc = omap yield (preorder doc).
Proof.
  rewrite scan_yield. destruct doc as [t a cs]. unfold descendants, obj_of.
  simpl records_flat. simpl children. simpl preorder. simpl tag. simpl attrib.
  intros [Hrec Hcs]%andb_prop. rewrite omap_cons.
  destruct (String.eqb t "Record") eqn:Ht.
  - rewrite (no_record_children postorder), (no_record_children preorder);
      auto using existsb_postorder.
    rewrite no_record_existsb by exact Hrec. simpl. rewrite app_nil_r. reflexivity.
  - rewrite (yield_not_record (Obj t a)) by exact Ht.
    rewrite (yield_not_record (root_after _ _)).
    2:{ destruct (existsb has_record cs); exact Ht. }
    simpl. rewrite app_nil_r. apply flat_children, Hcs.
Qed.

Lemma omap_yield_sublist (l : list obj) :
  omap yield l `sublist_of` (record_of <$> l).
Proof.
  induction l as [|o l IH]; [constructor|]. rewrite omap_cons, fmap_cons.
  destruct (yield o) as [d|] eqn:Hy; simpl.
  - apply yield_Some in Hy as [_ ->]. constructor. exact IH.
  - constructor. exact IH.
Qed.

Lemma postorder_root doc : postorder doc = descendants doc ++ [obj_of doc].
Proof. destruct doc. reflexivity. Qed.

Lemma scan_sublist doc : scan doc `sublist_of` (record_of <$> postorder doc).
Proof.
  rewrite scan_yield, postorder_root, fmap_app.
  apply sublist_app; [apply omap_yield_sublist|].
  destruct (yield _) as [d|] eqn:Hy; simpl; [|apply sublist_nil_l].
  destruct (existsb has_record (children doc)); simpl in Hy.
  - rewrite yield_cleared in Hy. discriminate.
  - apply yield_Some in Hy as [_ ->]. reflexivity.
Qed.

Lemma select_sublist {A} (mask : list bool) (l : list A) :
  Pandas.select mask l `sublist_of` l.
Proof.
  revert mask. induction l as [|a l IH]; intros [|[] mask]; simpl;
    try constructor; auto using sublist_nil_l.
Qed.

End order.

(** ** Frames *)

Section frames.
Import Py Pandas Spec.

Lemma mapM_Forall2 {A B} (f : A → result B) l l' :
  mapM f l = Ok l' → Forall2 (λ a b, f a = Ok b) l l'.
Proof.
  revert l'. induction l as [|a l IH]; simpl; intros l' H.
  - injection H as <-. constructor.
  - destruct (f a) as [b|] eqn:Hb; simpl in H; [|discriminate].
    destruct (mapM f l) as [bs|]; simpl in H; [|discriminate].
    injection H as <-. constructor; auto.
Qed.

Lemma mapM_length {A B} (f : A → result B) l l' :
  mapM f l = Ok l' → length l' = length l.
Proof. intros H%mapM_Forall2. symmetry. eapply Forall2_length, H. Qed.

Lemma mapM_total {A B} (f : A → result B) (g : A → B) l :
  (∀ a, f a = Ok (g a)) → mapM f l = Ok (g <$> l).
Proof.
  intros Hf. induction l as [|a l IH]; simpl; [reflexivity|].
  rewrite Hf, IH. reflexivity.
Qed.

Lemma select_nil {A} (mask : list bool) : select mask (@nil A) = [].
Proof. destruct mask; reflexivity. Qed.

Lemma select_length {A B} (mask : list bool) (l : list A) (l' : list B) :
  length l = length l' → length (select mask l) = length (select mask l').
Proof.
  revert l l'. induction mask as [|b mask IH]; intros [|a l] [|a' l'] H;
    simpl in *; try reflexivity; try discriminate.
  destruct b; simpl; auto.
Qed.

Lemma select_fmap {A B} (f : A → B) mask (l : list A) :
  select mask (f <$> l) = f <$> select mask l.
Proof.
  revert l. induction mask as [|b mask IH]; intros [|a l]; simpl; try reflexivity.
  destruct b; simpl; rewrite IH; reflexivity.
Qed.

Lemma columns_getitem_mask df mask : columns (getitem_mask df mask) = columns df.
Proof.
  unfold columns, getitem_mask. rewrite <- list_fmap_compose.
  apply list_fmap_ext. intros _ [c s] _. reflexivity.
Qed.

Lemma rectangular_getitem_mask df mask :
  rectangular df → rectangular (getitem_mask df mask).
Proof.
  unfold rectangular. destruct df as [|[c s] df]; [constructor|].
  intros H. simpl len in *. unfold getitem_mask.
  apply Forall_fmap. eapply Forall_impl; [exact H|].
  intros [c' s'] Hlen. simpl in *. apply select_length, Hlen.
Qed.

Lemma len_behead df : len (behead df) = pred (len df).
Proof.
  destruct df as [|[c s] df]; [reflexivity|]. simpl.
  destruct (values s); reflexivity.
Qed.

Lemma rectangular_behead df : rectangular df → rectangular (behead df).
Proof.
  unfold rectangular. rewrite len_behead. intros H. unfold behead.
  apply Forall_fmap. eapply Forall_impl; [exact H|].
  intros [c s] Hlen. simpl in *. rewrite <- Hlen. destruct (values s); reflexivity.
Qed.

Lemma row_behead df i : row (behead df) i = row df (S i).
Proof.
  unfold row, behead. rewrite <- list_fmap_compose.
  apply list_fmap_ext. intros _ [c s] _. simpl.
  rewrite lookup_tail. reflexivity.
Qed.

Lemma rows_behead df n :
  len df = S n → rows df = row df 0 :: rows (behead df).
Proof.
  intros Hn. unfold rows. rewrite len_behead, Hn. simpl. f_equal.
  rewrite <- fmap_S_seq, <- list_fmap_compose.
  apply list_fmap_ext. intros _ i _. simpl. symmetry. apply row_behead.
Qed.

Lemma rows_empty df : len df = 0 → rows df = [].
Proof. unfold rows. intros ->. reflexivity. Qed.

Lemma getitem_mask_false df mask :
  getitem_mask df (false :: mask) = getitem_mask (behead df) mask.
Proof.
  unfold getitem_mask, behead. rewrite <- list_fmap_compose.
  apply list_fmap_ext. intros _ [c s] _. simpl.
  destruct (values s); simpl; [rewrite select_nil|]; reflexivity.
Qed.

Lemma behead_getitem_mask_true df mask :
  behead (getitem_mask df (true :: mask)) = getitem_mask (behead df) mask.
Proof.
  unfold getitem_mask, behead. rewrite <- !list_fmap_compose.
  apply list_fmap_ext. intros _ [c s] _. simpl.
  destruct (values s); simpl; [rewrite select_nil|]; reflexivity.
Qed.

Lemma row_getitem_mask_true df mask n :
  rectangular df → len df = S n →
  row (getitem_mask df (true :: mask)) 0 = row df 0.
Proof.
  unfold rectangular. intros H Hn. unfold row, getitem_mask.
  rewrite <- list_fmap_compose. apply Forall_fmap_ext_1.
  eapply Forall_impl; [exact H|]. intros [c s] Hlen. simpl in *.
  destruct (values s); [simpl in Hlen; lia | reflexivity].
Qed.

Lemma len_getitem_mask_true df mask n :
  len df = S n → len (getitem_mask df (true :: mask)) = S (len (getitem_mask (behead df) mask)).
Proof.
  destruct df as [|[c s] df]; [discriminate|]. simpl.
  destruct (values s); [discriminate | reflexivity].
Qed.

(** Boolean indexing, read by rows: the rows at the true positions of the
    mask, in their order. *)
Lemma rows_getitem_mask mask : ∀ df,
  rectangular df → length mask = len df →
  rows (getitem_mask df mask) = select mask (rows df).
Proof.
  induction mask as [|b mask IH]; intros df Hrect Hlen; simpl in Hlen.
  - rewrite (rows_empty df) by auto. simpl. apply rows_empty.
    destruct df as [|[c s] df]; reflexivity.
  - symmetry in Hlen. rewrite (rows_behead df _ Hlen).
    assert (length mask = len (behead df)) as Hlen'
      by (rewrite len_behead, Hlen; reflexivity).
    destruct b; simpl.
    + rewrite (rows_behead _ _ (len_getitem_mask_true df mask _ Hlen)).
      rewrite (row_getitem_mask_true df mask _ Hrect Hlen).
      rewrite behead_getitem_mask_true, IH; auto using rectangular_behead.
    + rewrite getitem_mask_false, IH; auto using rectangular_behead.
Qed.

End frames.

(** ** Date conversion, lines 58-66 *)

Section conversion.
Import Py Pandas Pipeline Spec.
Variable parse_iso8601 : string → option (option Timestamp).
Variable parse_infer : list cell → string → option (option Timestamp).

Local Abbreviation to_datetime := (Pandas.to_datetime parse_iso8601 parse_infer).
Local Abbreviation convert_column := (Pipeline.convert_column parse_iso8601 parse_infer).
Local Abbreviation convert_columns := (Pipeline.convert_columns parse_iso8601 parse_infer).
Local Abbreviation date_parse := (Spec.date_parse parse_iso8601 parse_infer).

Lemma convert_coerce parser utc c :
  convert parser utc coerce c = Ok (coerced parser utc c).
Proof.
  destruct c as [|s| |t]; simpl; try reflexivity.
  destruct (parser s) as [[t|]|]; reflexivity.
Qed.

(** The strict pass over a column: it converts every value, or raises on
    the first value the format refuses. *)
Lemma strict_cases (l : list cell) :
  (Forall (λ c, ¬ refused parse_iso8601 c) l ∧
   mapM (convert parse_iso8601 true raise_) l = Ok (coerced parse_iso8601 true <$> l)) ∨
  (Exists (refused parse_iso8601) l ∧
   mapM (convert parse_iso8601 true raise_) l = Raise ValueError).
Proof.
  induction l as [|c l IH]; [left; split; [constructor | reflexivity]|].
  assert (refused parse_iso8601 c ∧ convert parse_iso8601 true raise_ c = Raise ValueError
          ∨ ¬ refused parse_iso8601 c
            ∧ convert parse_iso8601 true raise_ c = Ok (coerced parse_iso8601 true c)) as Hc.
  { destruct c as [|s| |t]; simpl;
      try (right; split; [intros (? & ? & _); discriminate | reflexivity]).
    destruct (parse_iso8601 s) as [[t|]|] eqn:Hs.
    - right. split; [intros (? & [= <-] & ?); congruence | reflexivity].
    - right. split; [intros (? & [= <-] & ?); congruence | reflexivity].
    - left. split; [exists s; auto | reflexivity]. }
  destruct Hc as [[Hr Hc]|[Hr Hc]].
  - right. split; [left; exact Hr|]. simpl. rewrite Hc. reflexivity.
  - destruct IH as [[Hall IH]|[Hex IH]].
    + left. split; [constructor; assumption|]. simpl. rewrite Hc, IH. reflexivity.
    + right. split; [right; exact Hex|]. simpl. rewrite Hc, IH. reflexivity.
Qed.

Lemma to_datetime_strict (s : Series) :
  (Forall (λ c, ¬ refused parse_iso8601 c) (values s) ∧
   to_datetime s (Some ISO8601) true raise_ = Ok (strict_column parse_iso8601 s)) ∨
  (Exists (refused parse_iso8601) (values s) ∧
   to_datetime s (Some ISO8601) true raise_ = Raise ValueError).
Proof.
  unfold Pandas.to_datetime.
  destruct (strict_cases (values s)) as [[H ->]|[H ->]]; [left | right]; auto.
Qed.

Lemma to_datetime_fallback (s : Series) :
  to_datetime s None false coerce = Ok (fallback_column parse_infer s).
Proof.
  unfold Pandas.to_datetime.
  rewrite (mapM_total _ (coerced (parse_infer (values s)) false))
    by (intros; apply convert_coerce).
  reflexivity.
Qed.

Lemma has_column_getitem df col s : getitem df col = Some s → has_column df col = true.
Proof.
  unfold has_column, columns. induction df as [|[c s'] df IH]; simpl; [discriminate|].
  rewrite (String.eqb_sym col c). destruct (String.eqb c col); auto.
Qed.

(** One iteration of the loop over [date_columns] never raises: the [except]
    branch catches the strict call, and the fallback coerces. *)
Lemma convert_column_spec df col s :
  getitem df col = Some s →
  ∃ s', convert_column df col = Ok (setitem df col s') ∧ date_parse s s'.
Proof.
  intros Hs. unfold Pipeline.convert_column.
  rewrite (has_column_getitem _ _ _ Hs), Hs.
  destruct (to_datetime_strict s) as [[H ->]|[H ->]].
  - exists (strict_column parse_iso8601 s). split; [reflexivity | left; auto].
  - rewrite to_datetime_fallback. simpl.
    exists (fallback_column parse_infer s). split; [reflexivity | right; auto].
Qed.

Lemma date_parse_length s s' : date_parse s s' → length (values s') = length (values s).
Proof. intros [[_ ->]|[_ ->]]; simpl; apply length_fmap. Qed.

Lemma first_seen_seen seen ks :
  Forall (λ k, existsb (String.eqb k) seen = true) ks → first_seen seen ks = [].
Proof. induction 1 as [|k ks Hk _ IH]; simpl; [|rewrite Hk]; auto. Qed.

Lemma first_seen_seven rest :
  Forall (λ k, k ∈ seven_columns) rest →
  first_seen [] (seven_columns ++ rest) = seven_columns.
Proof.
  intros H. unfold seven_columns. simpl. repeat f_equal.
  apply first_seen_seen. eapply Forall_impl; [exact H|].
  intros k Hk. unfold seven_columns in Hk.
  repeat (apply elem_of_cons in Hk as [->|Hk]; [reflexivity|]).
  inversion Hk.
Qed.

(** [pd.DataFrame] on records that all carry the seven keys. *)
Lemma of_records_seven r recs :
  Forall (λ d, keys d = seven_columns) (r :: recs) →
  of_records (r :: recs) = (λ k, (k, raw_column (r :: recs) k)) <$> seven_columns.
Proof.
  intros H. unfold of_records.
  assert (first_seen [] (flat_map keys (r :: recs)) = seven_columns) as ->; [|reflexivity].
  inversion H as [|? ? Hr Hrecs]; subst. simpl flat_map. rewrite Hr.
  apply first_seen_seven.
  clear -Hrecs. induction Hrecs as [|d recs Hd _ IH]; simpl; [constructor|].
  apply Forall_app. split; [|exact IH].
  rewrite Hd. apply Forall_forall. auto.
Qed.

(** Lines 56-66 on records that carry the seven keys: the three date
    columns are replaced by their parse, nothing else changes. *)
Lemma convert_columns_spec r recs :
  Forall (λ d, keys d = seven_columns) (r :: recs) →
  ∃ s1 s2 s3,
    convert_columns (of_records (r :: recs)) date_columns
      = Ok (parsed_frame (r :: recs) s1 s2 s3) ∧
    date_parse (raw_column (r :: recs) "start_date") s1 ∧
    date_parse (raw_column (r :: recs) "end_date") s2 ∧
    date_parse (raw_column (r :: recs) "creation_date") s3.
Proof.
  intros H. rewrite (of_records_seven _ _ H). generalize (r :: recs) as l. intros l.
  unfold date_columns, seven_columns. simpl fmap.
  unfold Pipeline.convert_columns.
  edestruct (convert_column_spec) as (s1 & -> & H1); [reflexivity|]. simpl.
  edestruct (convert_column_spec) as (s2 & -> & H2); [reflexivity|]. simpl.
  edestruct (convert_column_spec) as (s3 & -> & H3); [reflexivity|]. simpl.
  exists s1, s2, s3. auto.
Qed.

End conversion.

(** ** The 30-day window, lines 68-74 *)

Section window.
Import Py Pandas Pipeline Spec.

Lemma timedelta_30 : timedelta 30 = hours_720.
Proof. reflexivity. Qed.

Lemma comparable_aware a b : comparable a b = true ↔ aware a = aware b.
Proof. unfold comparable. destruct (aware a), (aware b); simpl; intuition congruence. Qed.

Lemma fold_later_Ok ts : ∀ acc m,
  fold_later acc ts = Ok m →
  m ∈ acc :: ts ∧
  ∀ t, t ∈ acc :: ts → (instant t <= instant m)%Z ∧ aware t = aware m.
Proof.
  induction ts as [|t ts IH]; intros acc m; simpl.
  - intros [= <-]. split; [left|].
    intros t ->%list_elem_of_singleton. split; [lia | reflexivity].
  - unfold later. destruct (comparable acc t) eqn:Hc; simpl; [|discriminate].
    apply comparable_aware in Hc. intros H. apply IH in H as [Hin Hmax].
    split.
    + apply elem_of_cons in Hin as [->|Hin].
      * destruct (instant acc <? instant t)%Z; [right; left | left].
      * right. right. exact Hin.
    + assert ((instant acc <= instant m)%Z ∧ (instant t <= instant m)%Z
              ∧ aware acc = aware m ∧ aware t = aware m) as (H1 & H2 & H3 & H4).
      { destruct (Z.ltb_spec (instant acc) (instant t)) as [Hlt|Hge];
          destruct (Hmax _ ltac:(left)) as [Hle Haw]; repeat split;
          try lia; congruence. }
      intros t' [->|[->|Ht']%elem_of_cons]%elem_of_cons; auto.
      apply Hmax. right. exact Ht'.
Qed.

(** [max] answers [NaT] on a column without timestamps, and otherwise a
    timestamp of the column that no other is later than. *)
Lemma max_Ok s c :
  max s = Ok c →
  (stamps (values s) = [] ∧ c = NaT) ∨
  (∃ m, c = Stamp m ∧ latest (instant m) (instants s) ∧
        ∀ t, t ∈ stamps (values s) → aware t = aware m).
Proof.
  unfold max, instants, latest. destruct (stamps (values s)) as [|t ts].
  - intros [= <-]. left. auto.
  - destruct (fold_later t ts) as [m|] eqn:Hm; [|discriminate].
    intros [= <-]. right. exists m. apply fold_later_Ok in Hm as [Hin Hmax].
    split; [reflexivity|]. split; [split|].
    + apply (list_elem_of_fmap_2 instant), Hin.
    + intros x Hx. apply (list_elem_of_fmap_1 instant) in Hx as (t' & -> & Ht').
      apply Hmax, Ht'.
    + intros t' Ht'. apply Hmax, Ht'.
Qed.

Lemma latest_unique m m' l : latest m l → latest m' l → m = m'.
Proof. intros [H1 H2] [H3 H4]. apply H2 in H3. apply H4 in H1. lia. Qed.

Lemma elem_of_stamps t vals : t ∈ stamps vals ↔ Stamp t ∈ vals.
Proof.
  unfold stamps. rewrite list_elem_of_omap. split.
  - intros ([] & H & [= ->]). exact H.
  - intros H. eauto.
Qed.

Lemma ge_mask_NaT s : ge_mask s NaT = Ok (const false <$> values s).
Proof.
  unfold ge_mask. apply mapM_total. intros []; reflexivity.
Qed.

Lemma lookup_const_false {A} (l : list A) i : (const false <$> l) !! i ≠ Some true.
Proof. rewrite list_lookup_fmap. destruct (l !! i); discriminate. Qed.

(** The mask against the cutoff of the column's own latest timestamp. *)
Lemma ge_mask_cutoff s m td :
  (∀ t, t ∈ stamps (values s) → aware t = aware m) →
  ∃ mask, ge_mask s (sub (Stamp m) td) = Ok mask ∧
    length mask = length (values s) ∧
    ∀ i, mask !! i = Some true ↔
         ∃ t, values s !! i = Some (Stamp t) ∧ (instant m - td <= instant t)%Z.
Proof.
  intros Haw. unfold ge_mask. simpl sub.
  set (cutoff := Ts (wall m - td) (utcoffset m)).
  assert (instant cutoff = instant m - td ∧ aware cutoff = aware m)%Z as Hcut
    by (unfold instant, aware; simpl; split; [lia | reflexivity]).
  set (keep := λ c, match c with
                    | Stamp t => (instant m - td <=? instant t)%Z
                    | _ => false
                    end).
  exists (keep <$> values s).
  assert (∀ vals, (∀ t, Stamp t ∈ vals → aware t = aware m) →
            mapM (λ c, ge c (Stamp cutoff)) vals = Ok (keep <$> vals)) as Hmap.
  { induction vals as [|c vals IH]; intros Hv; simpl; [reflexivity|].
    rewrite IH by (intros; apply Hv; right; assumption).
    destruct c as [|str| |t]; try reflexivity. simpl.
    assert (comparable t cutoff = true) as ->.
    { apply comparable_aware. rewrite (proj2 Hcut). apply Hv. left. }
    simpl. rewrite (proj1 Hcut). reflexivity. }
  split; [|split].
  - apply Hmap. intros t Ht. apply Haw, elem_of_stamps, Ht.
  - apply length_fmap.
  - intros i. rewrite list_lookup_fmap.
    destruct (values s !! i) as [[|str| |t]|]; simpl;
      try (split; [discriminate | intros (? & [=] & _)]).
    split.
    + intros [= H%Z.leb_le]. eauto.
    + intros (t' & [= <-] & H). f_equal. apply Z.leb_le, H.
Qed.

(** Lines 69-74: the rows kept are those whose [start_date] is a timestamp
    at most 720 hours before the latest one. *)
Lemma last_30_days_spec df s df' :
  getitem df "start_date" = Some s →
  last_30_days df = Ok df' →
  ∃ mask, df' = getitem_mask df mask ∧
    length mask = length (values s) ∧
    ∀ i, mask !! i = Some true ↔
         ∃ t m, values s !! i = Some (Stamp t) ∧ latest m (instants s)
                ∧ (m - hours_720 <= instant t)%Z.
Proof.
  intros Hs. unfold last_30_days.
  rewrite (has_column_getitem _ _ _ Hs), Hs.
  destruct (max s) as [latest_date|] eqn:Hmax; simpl; [|discriminate].
  apply max_Ok in Hmax as [[Hnone ->]|(m & -> & Hlatest & Haw)].
  - simpl sub. rewrite ge_mask_NaT. simpl. intros [= <-].
    eexists. split; [reflexivity|]. split; [apply length_fmap|].
    intros i. split; [intros H; destruct (lookup_const_false _ _ H)|].
    intros (t & m & Ht & _). exfalso.
    assert (t ∈ stamps (values s)) as Hin
      by (apply elem_of_stamps, list_elem_of_lookup; eauto).
    rewrite Hnone in Hin. inversion Hin.
  - destruct (ge_mask_cutoff s m (timedelta 30) Haw) as (mask & -> & Hlen & Hmask).
    simpl. intros [= <-]. exists mask. split; [reflexivity|]. split; [exact Hlen|].
    intros i. rewrite Hmask, timedelta_30. split.
    + intros (t & Ht & Hle). eauto.
    + intros (t & m' & Ht & Hm' & Hle).
      rewrite (latest_unique _ _ _ Hlatest Hm'). eauto.
Qed.

(** Without a timestamp in [start_date], nothing is kept. *)
Lemma last_30_days_all_null df s :
  getitem df "start_date" = Some s →
  stamps (values s) = [] →
  last_30_days df = Ok (getitem_mask df (const false <$> values s)).
Proof.
  intros Hs Hnone. unfold last_30_days.
  rewrite (has_column_getitem _ _ _ Hs), Hs.
  unfold max. rewrite Hnone. simpl. rewrite ge_mask_NaT. reflexivity.
Qed.

End window.

(** ** The pipeline *)

Section run.
Import Py ET Pandas Pipeline Spec.
Variable parse_iso8601 : string → option (option Timestamp).
Variable parse_infer : list cell → string → option (option Timestamp).
Variable str_of : cell → string.
Variable head_repr : DataFrame → string.

Local Abbreviation convert_columns := (Pipeline.convert_columns parse_iso8601 parse_infer).
Local Abbreviation date_parse := (Spec.date_parse parse_iso8601 parse_infer).
Local Abbreviation parsed_table := (Pipeline.parsed_table parse_iso8601 parse_infer).
Local Abbreviation extract_sleep_data :=
  (Pipeline.extract_sleep_data parse_iso8601 parse_infer str_of).
Local Abbreviation main := (Pipeline.main parse_iso8601 parse_infer str_of head_repr).

Lemma read_records_doc w zip_path members doc :
  fs w !! zip_path = Some (ZipArchive members) →
  members !! export_xml = Some (WellFormed doc) →
  read_records w zip_path = Ok (Filter.scan doc).
Proof. intros H1 H2. unfold read_records. rewrite H1, H2. reflexivity. Qed.

Lemma read_records_Ok w zip_path recs :
  read_records w zip_path = Ok recs →
  ∃ members doc, fs w !! zip_path = Some (ZipArchive members) ∧
                 members !! export_xml = Some (WellFormed doc) ∧
                 recs = Filter.scan doc.
Proof.
  unfold read_records.
  destruct (fs w !! zip_path) as [[members| |]|] eqn:Hf; try discriminate.
  destruct (members !! export_xml) as [[doc|]|] eqn:Hm; try discriminate.
  intros [= <-]. eauto.
Qed.

Lemma scan_keys doc : Forall (λ d, keys d = seven_columns) (Filter.scan doc).
Proof.
  apply Forall_forall. intros r (o & _ & _ & ->)%scan_sound. reflexivity.
Qed.

Lemma read_records_keys w zip_path recs :
  read_records w zip_path = Ok recs → Forall (λ d, keys d = seven_columns) recs.
Proof. intros (? & doc & _ & _ & ->)%read_records_Ok. apply scan_keys. Qed.

(** The parsed table of a run that found records. *)
Lemma parsed_table_spec w zip_path r recs :
  read_records w zip_path = Ok (r :: recs) →
  ∃ s1 s2 s3,
    parsed_table w zip_path = Ok (parsed_frame (r :: recs) s1 s2 s3) ∧
    date_parse (raw_column (r :: recs) "start_date") s1 ∧
    date_parse (raw_column (r :: recs) "end_date") s2 ∧
    date_parse (raw_column (r :: recs) "creation_date") s3.
Proof.
  intros H. unfold Pipeline.parsed_table. rewrite H. simpl bind.
  apply convert_columns_spec, (read_records_keys _ _ _ H).
Qed.

Lemma rectangular_parsed_frame recs s1 s2 s3 :
  length (values s1) = length recs →
  length (values s2) = length recs →
  length (values s3) = length recs →
  rectangular (parsed_frame recs s1 s2 s3) ∧ len (parsed_frame recs s1 s2 s3) = length recs.
Proof.
  intros H1 H2 H3. unfold rectangular, parsed_frame, raw_column. simpl.
  rewrite !length_map. split; [|reflexivity].
  repeat constructor; simpl; rewrite ?length_map; auto.
Qed.

Lemma raw_column_length recs k : length (values (raw_column recs k)) = length recs.
Proof. apply length_map. Qed.

Lemma report_fs df output_file w : fs (report str_of df output_file w).2 = fs w.
Proof.
  unfold report. destruct (getitem df "start_date") as [s|]; [|reflexivity].
  destruct (min s), (max s); reflexivity.
Qed.

(** What a run that returns a frame has gone through. *)
Lemma extract_Some w zip_path output_file df_out w' :
  extract_sleep_data w zip_path output_file = (Ok (Some df_out), w') →
  ∃ recs df,
    read_records w zip_path = Ok recs ∧ recs ≠ [] ∧
    parsed_table w zip_path = Ok df ∧
    last_30_days df = Ok df_out ∧ empty df_out = false ∧
    fs w' = <[output_file := Parquet df_out]> (fs w).
Proof.
  unfold Pipeline.extract_sleep_data, Pipeline.parsed_table.
  destruct (read_records w zip_path) as [[|r recs]|]; [intros [=] | | intros [=]].
  remember (convert_columns (of_records (r :: recs)) date_columns) as c eqn:Hc.
  destruct c as [df|e]; cbn [bind]; [|intros [=]].
  destruct (last_30_days df) as [df'|] eqn:Hw; [|intros [=]].
  destruct (empty df') eqn:He; [intros [=]|].
  pose proof (report_fs df' output_file (to_parquet df' output_file w)) as Hfs.
  destruct (report str_of df' output_file (to_parquet df' output_file w))
    as [[[]|e] w'']; intros [= <- <-].
  exists (r :: recs), df. repeat split; auto.
Qed.

Lemma select_nonempty {A} mask (l : list A) :
  select mask l ≠ [] → ∃ i, mask !! i = Some true.
Proof.
  revert l. induction mask as [|b mask IH]; intros [|a l]; simpl; try congruence.
  destruct b; [exists 0; reflexivity|].
  intros (i & Hi)%IH. exists (S i). exact Hi.
Qed.

Lemma getitem_mask_nonempty df mask :
  empty (getitem_mask df mask) = false → ∃ i, mask !! i = Some true.
Proof.
  destruct df as [|[c s] df]; [discriminate|]. simpl.
  intros H. apply (select_nonempty mask (values s)).
  destruct (select mask (values s)); [discriminate | discriminate].
Qed.

Lemma select_const_false {A B} (l : list A) (l' : list B) :
  select (const false <$> l) l' = [].
Proof.
  revert l'. induction l as [|a l IH]; intros [|b l']; simpl; auto.
Qed.

Lemma empty_getitem_mask_false df (l : list cell) :
  empty (getitem_mask df (const false <$> l)) = true.
Proof.
  destruct df as [|[c s] df]; [reflexivity|]. simpl.
  rewrite select_const_false. reflexivity.
Qed.

(** A run whose window keeps nothing. *)
Lemma extract_empty_window w zip_path output_file r recs df df' :
  read_records w zip_path = Ok (r :: recs) →
  parsed_table w zip_path = Ok df →
  last_30_days df = Ok df' → empty df' = true →
  extract_sleep_data w zip_path output_file = (Ok None, print no_recent_data w).
Proof.
  unfold Pipeline.extract_sleep_data, Pipeline.parsed_table.
  intros ->. cbn [bind]. intros ->. cbn [bind]. intros -> ->. reflexivity.
Qed.

End run.

(** ** The claims of the specification *)

Section claims.
Import Py ET Pandas Pipeline Spec.
Variable parse_iso8601 : string → option (option Timestamp).
Variable parse_infer : list cell → string → option (option Timestamp).
Variable str_of : cell → string.
Variable head_repr : DataFrame → string.

Local Abbreviation date_parse := (Spec.date_parse parse_iso8601 parse_infer).
Local Abbreviation parsed_table := (Pipeline.parsed_table parse_iso8601 parse_infer).
Local Abbreviation extract_sleep_data :=
  (Pipeline.extract_sleep_data parse_iso8601 parse_infer str_of).
Local Abbreviation main := (Pipeline.main parse_iso8601 parse_infer str_of head_repr).

(** A run that returns a frame: the frame is the parsed table under a mask,
    and the mask is the 720-hour window below the latest [start_date]. *)
Lemma run_window w zip_path output_file df_out w' :
  extract_sleep_data w zip_path output_file = (Ok (Some df_out), w') →
  ∃ recs s1 s2 s3 mask m,
    read_records w zip_path = Ok recs ∧
    parsed_table w zip_path = Ok (parsed_frame recs s1 s2 s3) ∧
    date_parse (raw_column recs "start_date") s1 ∧
    date_parse (raw_column recs "end_date") s2 ∧
    date_parse (raw_column recs "creation_date") s3 ∧
    latest m (instants s1) ∧
    df_out = getitem_mask (parsed_frame recs s1 s2 s3) mask ∧
    rows df_out = select mask (rows (parsed_frame recs s1 s2 s3)) ∧
    length mask = length recs ∧
    (∀ i, mask !! i = Some true ↔
          ∃ t, values s1 !! i = Some (Stamp t) ∧ (m - hours_720 <= instant t)%Z) ∧
    fs w' = <[output_file := Parquet df_out]> (fs w).
Proof.
  intros (recs & df & Hread & Hne & Hparsed & Hwin & Hempty & Hfs)%extract_Some.
  destruct recs as [|r recs]; [congruence|].
  destruct (parsed_table_spec parse_iso8601 parse_infer _ _ _ _ Hread)
    as (s1 & s2 & s3 & Hp & H1 & H2 & H3).
  rewrite Hp in Hparsed. injection Hparsed as <-.
  destruct (last_30_days_spec (parsed_frame (r :: recs) s1 s2 s3) s1 df_out
              eq_refl Hwin) as (mask & -> & Hlen & Hmask).
  pose proof (date_parse_length _ _ _ _ H1) as L1.
  pose proof (date_parse_length _ _ _ _ H2) as L2.
  pose proof (date_parse_length _ _ _ _ H3) as L3.
  rewrite raw_column_length in L1, L2, L3.
  destruct (rectangular_parsed_frame (r :: recs) s1 s2 s3 L1 L2 L3) as [Hrect Hl].
  destruct (getitem_mask_nonempty _ _ Hempty) as (i0 & Hi0).
  pose proof Hi0 as (t0 & m & _ & Hm & _)%Hmask.
  exists (r :: recs), s1, s2, s3, mask, m.
  repeat split; auto.
  - apply Hm.
  - apply Hm.
  - apply rows_getitem_mask; [exact Hrect | congruence].
  - congruence.
  - intros (t & m' & Ht & Hm' & Hle)%Hmask.
    rewrite (latest_unique _ _ _ Hm Hm'). eauto.
  - intros (t & Ht & Hle). apply Hmask. eauto.
Qed.

(** C1 (window invariant).  Whenever [extract_sleep_data] returns a table,
    that table is the parsed table restricted to a mask, and row [i] is kept
    if and only if its [start_date] is a timestamp (not null) that is at most
    30 days = 720 hours before the latest [start_date] of the parsed rows,
    nulls being left out of that maximum. *)
Theorem window_invariant w zip_path output_file df_out w' :
  extract_sleep_data w zip_path output_file = (Ok (Some df_out), w') →
  ∃ df s mask m,
    parsed_table w zip_path = Ok df ∧
    getitem df "start_date" = Some s ∧
    latest m (instants s) ∧
    df_out = getitem_mask df mask ∧
    rows df_out = select mask (rows df) ∧
    length mask = len df ∧
    ∀ i, mask !! i = Some true ↔
         ∃ t, values s !! i = Some (Stamp t) ∧ (m - hours_720 <= instant t)%Z.
Proof.
  intros (recs & s1 & s2 & s3 & mask & m & _ & Hp & _ & _ & _ & Hm & Hout
          & Hrows & Hlen & Hmask & _)%run_window.
  exists (parsed_frame recs s1 s2 s3), s1, mask, m.
  repeat split; try apply Hm; try apply Hmask; auto.
  rewrite Hlen. unfold parsed_frame, raw_column. simpl. rewrite length_map. reflexivity.
Qed.


(** C7 (archive errors).  When opening the archive or its member fails -
    the path does not exist, the file is not a zip archive, or the archive
    has no [apple_health_export/export.xml] - [extract_sleep_data] raises
    that error at once, having printed and written nothing, and the program
    lets it through. *)
Theorem open_errors_are_fatal w zip_path output_file e :
  open_fails w zip_path e →
  extract_sleep_data w zip_path output_file = (Raise e, w) ∧
  (zip_path = "export.zip" → output_file = "sleep_data.parquet" →
   is_Some (fs w !! zip_path) → main w = (Raise e, w)).
Proof.
  intros H.
  assert (extract_sleep_data w zip_path output_file = (Raise e, w)) as Hx.
  { unfold Pipeline.extract_sleep_data, read_records.
    destruct H as [H | f H Hf | members H Hm]; rewrite H; [reflexivity | |].
    - destruct f; [destruct (Hf members) |..]; reflexivity.
    - rewrite Hm. reflexivity. }
  split; [exact Hx|]. intros -> -> Hsome. unfold Pipeline.main.
  rewrite bool_decide_eq_true_2 by exact Hsome. rewrite Hx. reflexivity.
Qed.

(** C10 (all start dates null).  When records were found but no
    [start_date] of the parsed table is a timestamp, the maximum is [NaT],
    the comparison holds for no row, and [extract_sleep_data] returns [None]
    having appended the line [No sleep data found in the last 30 days.] to
    standard output and written no file. *)
Theorem null_start_dates_give_empty_result w zip_path output_file recs df s :
  read_records w zip_path = Ok recs → recs ≠ [] →
  parsed_table w zip_path = Ok df →
  getitem df "start_date" = Some s →
  Forall (λ c, c = NaT) (values s) →
  max s = Ok NaT ∧
  ge_mask s (sub NaT (timedelta 30)) = Ok (const false <$> values s) ∧
  (∃ df', last_30_days df = Ok df' ∧ empty df' = true) ∧
  extract_sleep_data w zip_path output_file = (Ok None, print no_recent_data w) ∧
  fs (print no_recent_data w) = fs w ∧
  stdout (print no_recent_data w)
  = stdout w ++ ["No sleep data found in the last 30 days."].
Proof.
  intros Hread Hne Hp Hs Hnull.
  assert (stamps (values s) = []) as Hnone.
  { clear -Hnull. induction Hnull as [|c l -> _ IH]; [reflexivity | exact IH]. }
  pose proof (last_30_days_all_null df s Hs Hnone) as Hw.
  split; [unfold max; rewrite Hnone; reflexivity|].
  split; [apply ge_mask_NaT|].
  split; [eexists; split; [exact Hw | apply empty_getitem_mask_false]|].
  split; [|split; reflexivity].
  destruct recs as [|r recs]; [congruence|].
  eapply extract_empty_window; eauto. apply empty_getitem_mask_false.
Qed.

End claims.

(** ** Runs that return a table *)

Section returns.
Import Py ET Pandas Pipeline Spec.
Variable parse_iso8601 : string → option (option Timestamp).
Variable parse_infer : list cell → string → option (option Timestamp).
Variable str_of : cell → string.

Local Abbreviation date_parse := (Spec.date_parse parse_iso8601 parse_infer).
Local Abbreviation parsed_table := (Pipeline.parsed_table parse_iso8601 parse_infer).
Local Abbreviation extract_sleep_data :=
  (Pipeline.extract_sleep_data parse_iso8601 parse_infer str_of).

Lemma fold_later_total ts : ∀ acc,
  (∀ t, t ∈ ts → aware t = aware acc) → ∃ m, fold_later acc ts = Ok m.
Proof.
  induction ts as [|t ts IH]; intros acc H; simpl; [eauto|].
  unfold later. rewrite (proj2 (comparable_aware acc t))
    by (symmetry; apply H; left).
  simpl. apply IH. intros t' Ht'.
  rewrite (H t') by (right; exact Ht').
  destruct (instant acc <? instant t)%Z; [symmetry; apply H; left | reflexivity].
Qed.

Lemma fold_earlier_total ts : ∀ acc,
  (∀ t, t ∈ ts → aware t = aware acc) → ∃ m, fold_earlier acc ts = Ok m.
Proof.
  induction ts as [|t ts IH]; intros acc H; simpl; [eauto|].
  unfold earlier. rewrite (proj2 (comparable_aware acc t))
    by (symmetry; apply H; left).
  simpl. apply IH. intros t' Ht'.
  rewrite (H t') by (right; exact Ht').
  destruct (instant t <? instant acc)%Z; [symmetry; apply H; left | reflexivity].
Qed.

Lemma max_total s : uniform (values s) → ∃ c, max s = Ok c.
Proof.
  unfold max, uniform. destruct (stamps (values s)) as [|t ts]; [eauto|].
  intros H. destruct (fold_later_total ts t) as [m ->]; [|simpl; eauto].
  intros t' Ht'. apply H; [right; exact Ht' | left].
Qed.

Lemma min_total s : uniform (values s) → ∃ c, min s = Ok c.
Proof.
  unfold min, uniform. destruct (stamps (values s)) as [|t ts]; [eauto|].
  intros H. destruct (fold_earlier_total ts t) as [m ->]; [|simpl; eauto].
  intros t' Ht'. apply H; [right; exact Ht' | left].
Qed.

Lemma elem_of_select {A} mask (l : list A) x : x ∈ select mask l → x ∈ l.
Proof. intros H. eapply elem_of_sublist; [exact H | apply select_sublist]. Qed.

Lemma uniform_select mask vals : uniform vals → uniform (select mask vals).
Proof.
  intros H t t' Ht Ht'. apply H; apply elem_of_stamps;
    eapply elem_of_select; apply elem_of_stamps; eassumption.
Qed.

Lemma select_true {A} mask (l : list A) i :
  mask !! i = Some true → i < length l → select mask l ≠ [].
Proof.
  revert l i. induction mask as [|b mask IH]; intros [|a l] [|i]; simpl;
    try discriminate; try lia.
  - intros [= ->] _. discriminate.
  - intros Hi Hlt. destruct b; [discriminate|]. apply (IH l i Hi). lia.
Qed.

Lemma timedelta_30_pos : (0 < timedelta 30)%Z.
Proof. reflexivity. Qed.

(** When the [start_date] column holds a timestamp and its timestamps can
    be compared, the run returns a table and writes it. *)
Lemma extract_returns w zip_path output_file r recs s1 s2 s3 :
  read_records w zip_path = Ok (r :: recs) →
  parsed_table w zip_path = Ok (parsed_frame (r :: recs) s1 s2 s3) →
  uniform (values s1) → stamps (values s1) ≠ [] →
  ∃ df_out w', extract_sleep_data w zip_path output_file = (Ok (Some df_out), w').
Proof.
  intros Hread Hp Hu Hne.
  destruct (parsed_table_spec parse_iso8601 parse_infer _ _ _ _ Hread)
    as (s1' & s2' & s3' & Hp' & H1 & _).
  rewrite Hp in Hp'. injection Hp' as <- <- <-.
  pose proof (date_parse_length _ _ _ _ H1) as L1. rewrite raw_column_length in L1.
  unfold Pipeline.extract_sleep_data. unfold Pipeline.parsed_table in Hp.
  rewrite Hread in *. cbn [bind] in Hp. rewrite Hp. cbn [bind].
  unfold last_30_days.
  rewrite (has_column_getitem (parsed_frame (r :: recs) s1 s2 s3) "start_date" s1 eq_refl).
  change (getitem (parsed_frame (r :: recs) s1 s2 s3) "start_date") with (Some s1).
  destruct (max_total s1 Hu) as [c Hc]. rewrite Hc. cbn [bind].
  apply max_Ok in Hc as [[Hnone _]|(m & -> & [Hin Hmax] & Haw)]; [contradiction|].
  destruct (ge_mask_cutoff s1 m (timedelta 30) Haw) as (mask & -> & Hlen & Hmask).
  cbn [bind].
  apply list_elem_of_fmap_1 in Hin as (tm & Htm & Hin).
  apply elem_of_stamps, list_elem_of_lookup in Hin as [i Hi].
  assert (mask !! i = Some true) as Hmi.
  { apply Hmask. exists tm. split; [exact Hi|]. pose proof timedelta_30_pos. lia. }
  assert (empty (getitem_mask (parsed_frame (r :: recs) s1 s2 s3) mask) = false) as ->.
  { change (empty (getitem_mask (parsed_frame (r :: recs) s1 s2 s3) mask))
      with (length (select mask (values (raw_column (r :: recs) "type"))) =? 0).
    pose proof (select_true mask (values (raw_column (r :: recs) "type")) i Hmi) as Hs.
    rewrite raw_column_length in Hs. apply lookup_lt_Some in Hi. rewrite L1 in Hi.
    specialize (Hs Hi).
    destruct (select mask _); [congruence | reflexivity]. }
  unfold report.
  change (getitem (getitem_mask (parsed_frame (r :: recs) s1 s2 s3) mask) "start_date")
    with (Some (MkSeries (dt s1) (select mask (values s1)))).
  destruct (min_total (MkSeries (dt s1) (select mask (values s1)))) as [lo ->];
    [apply uniform_select, Hu|].
  destruct (max_total (MkSeries (dt s1) (select mask (values s1)))) as [hi ->];
    [apply uniform_select, Hu|].
  eauto.
Qed.

(** The strict column is in UTC: its timestamps are all aware. *)
Lemma strict_column_uniform s : uniform (values (strict_column parse_iso8601 s)).
Proof.
  assert (∀ t, t ∈ stamps (values (strict_column parse_iso8601 s)) → aware t = true) as H.
  { intros t Ht. apply elem_of_stamps in Ht. simpl in Ht.
    apply list_elem_of_fmap_1 in Ht as (c & Hc & _).
    destruct c as [|str| |t']; simpl in Hc; try discriminate.
    - destruct (parse_iso8601 str) as [[t'|]|]; try discriminate.
      injection Hc as ->. reflexivity.
    - injection Hc as ->. reflexivity. }
  intros t t' Ht Ht'. rewrite (H t Ht), (H t' Ht'). reflexivity.
Qed.

End returns.

(** ** The streaming filter: claims *)

Section filter_claims.
Import Py ET Pandas Pipeline Spec.

(** The keyword filter below the root.  For every element other than the root
    of the document, the loop appends a record if and only if the element is
    a [Record] whose [type] attribute is present and contains ["sleep"],
    ["Sleep"] or ["SLEEP"]; the record is the element's [record_of], and the
    records come in the order of the end tags.  The root contributes at most
    its own record; when no [Record] lies inside it, it is subject to the
    same test. *)
Theorem keyword_filter_below_root (doc : Element) :
  ∃ keep root_part,
    marks_sleep_typed keep (descendants doc) ∧
    Filter.scan doc = (record_of <$> select keep (descendants doc)) ++ root_part ∧
    (root_part = [] ∨ root_part = [record_of (obj_of doc)]) ∧
    (existsb has_record (children doc) = false →
     (root_part = [record_of (obj_of doc)] ↔ sleep_typed (obj_of doc))).
Proof.
  destruct (omap_yield_select (descendants doc)) as (keep & Hkeep & Hsel).
  exists keep, (option_list
    (yield (root_after (existsb has_record (children doc)) (obj_of doc)))).
  split; [exact Hkeep|]. split; [rewrite scan_yield, Hsel; reflexivity|].
  split.
  - destruct (existsb has_record (children doc)); simpl.
    + rewrite yield_cleared. left. reflexivity.
    + destruct (yield (obj_of doc)) as [d|] eqn:Hy; [|left; reflexivity].
      apply yield_Some in Hy as [_ ->]. right. reflexivity.
  - intros ->. simpl. split.
    + destruct (yield (obj_of doc)) as [d|] eqn:Hy; [|discriminate].
      intros _. apply yield_Some in Hy. tauto.
    + intros Hs. assert (yield (obj_of doc) = Some (record_of (obj_of doc))) as ->
        by (apply yield_Some; auto).
      reflexivity.
Qed.

(** C6 (missing attributes).  Reading a readable archive never raises,
    whatever attributes its elements lack: every sleep record below the root
    gives a record, and every record read has, for each of its fields, the
    value of the attribute it is read from - [None] when the element has no
    such attribute. *)
Theorem missing_attribute_is_null w zip_path members doc :
  fs w !! zip_path = Some (ZipArchive members) →
  members !! export_xml = Some (WellFormed doc) →
  ∃ recs, read_records w zip_path = Ok recs ∧
    (∀ o, o ∈ descendants doc → sleep_typed o → record_of o ∈ recs) ∧
    (∀ r, r ∈ recs →
       ∃ o, o ∈ preorder doc ∧ sleep_typed o ∧
            dict_get r "type" = Some (get o "type") ∧
            ∀ field attr, (field, attr) ∈ field_attributes →
              dict_get r field = Some (get o attr) ∧
              (obj_attrib o !! attr = None → dict_get r field = Some None)).
Proof.
  intros Hf Hm. exists (Filter.scan doc).
  split; [apply (read_records_doc _ _ _ _ Hf Hm)|].
  split; [apply scan_complete|].
  intros r (o & Ho & Hs & ->)%scan_sound. exists o.
  split; [exact Ho|]. split; [exact Hs|]. split; [reflexivity|].
  intros field attr Hin. unfold field_attributes in Hin.
  assert (dict_get (record_of o) field = Some (get o attr)) as H.
  { repeat (apply elem_of_cons in Hin as [[= -> ->]|Hin]; [reflexivity|]).
    inversion Hin. }
  split; [exact H|]. intros Hnone. rewrite H. unfold get. rewrite Hnone. reflexivity.
Qed.

End filter_claims.

Section order_claims.
Import Py ET Pandas Pipeline Spec.
Variable parse_iso8601 : string → option (option Timestamp).
Variable parse_infer : list cell → string → option (option Timestamp).
Variable str_of : cell → string.

(** C8 (order), by end tags.  The records are appended in the order of the end
    tags of their elements; when no [Record] is nested in a [Record] that is
    the order of the document.  The window keeps the rows of the parsed
    table, whose row [i] comes from record [i], in their order. *)
Theorem records_keep_end_tag_order w zip_path members doc :
  fs w !! zip_path = Some (ZipArchive members) →
  members !! export_xml = Some (WellFormed doc) →
  Filter.scan doc `sublist_of` (record_of <$> postorder doc) ∧
  (records_flat doc = true →
   ∃ keep, marks_sleep_typed keep (preorder doc) ∧
           Filter.scan doc = record_of <$> select keep (preorder doc)) ∧
  (∀ output_file df_out w',
     Pipeline.extract_sleep_data parse_iso8601 parse_infer str_of
       w zip_path output_file = (Ok (Some df_out), w') →
     ∃ s1 s2 s3 mask,
       Pipeline.parsed_table parse_iso8601 parse_infer w zip_path
         = Ok (parsed_frame (Filter.scan doc) s1 s2 s3) ∧
       length (values s1) = length (Filter.scan doc) ∧
       df_out = getitem_mask (parsed_frame (Filter.scan doc) s1 s2 s3) mask ∧
       rows df_out = select mask (rows (parsed_frame (Filter.scan doc) s1 s2 s3)) ∧
       rows df_out `sublist_of` rows (parsed_frame (Filter.scan doc) s1 s2 s3)).
Proof.
  intros Hf Hm. split; [apply scan_sublist|]. split.
  - intros Hflat. rewrite (scan_flat doc Hflat). apply omap_yield_select.
  - intros output_file df_out w' Hrun.
    apply run_window in Hrun
      as (recs & s1 & s2 & s3 & mask & m & Hread & Hp & H1 & _ & _ & _ & Hout
          & Hrows & _).
    rewrite (read_records_doc _ _ _ _ Hf Hm) in Hread. injection Hread as <-.
    exists s1, s2, s3, mask. split; [exact Hp|].
    split; [rewrite (date_parse_length _ _ _ _ H1); apply raw_column_length|].
    split; [exact Hout|]. split; [exact Hrows|].
    rewrite Hrows. apply select_sublist.
Qed.

End order_claims.

(** ** The end-to-end example *)

Section example.
Import Py ET Pandas Pipeline Spec.
Variable parse_iso8601 : string → option (option Timestamp).
Variable parse_infer : list cell → string → option (option Timestamp).
Variable str_of : cell → string.

Lemma five_records_scan d0 d1 d2 d3 d4 :
  Filter.scan (Reference.five_records d0 d1 d2 d3 d4) =
  [ [("type", Some "HKCategoryTypeIdentifierSleepAnalysis"); ("start_date", Some d0);
     ("end_date", None); ("value", None); ("unit", None); ("source_name", None);
     ("creation_date", None)];
    [("type", Some "SleepSession"); ("start_date", Some d2);
     ("end_date", None); ("value", None); ("unit", None); ("source_name", None);
     ("creation_date", None)];
    [("type", Some "sleep_efficiency"); ("start_date", Some d3);
     ("end_date", None); ("value", None); ("unit", None); ("source_name", None);
     ("creation_date", None)] ].
Proof. vm_compute. reflexivity. Qed.

Lemma archive_read doc :
  read_records (Reference.archive doc) "export.zip" = Ok (Filter.scan doc).
Proof.
  apply (read_records_doc _ _ {[ export_xml := WellFormed doc ]}).
  - apply lookup_singleton_eq.
  - apply lookup_singleton_eq.
Qed.

Lemma instant_utc n : instant (Ts n UTC) = n.
Proof. unfold instant. simpl. lia. Qed.

Lemma may_31_cutoff : (Reference.jun_30_2024 - hours_720 = Reference.may_31_2024)%Z.
Proof. reflexivity. Qed.

(** The five records of the end-to-end example, with the window anchored
    on the sleep records: the window starts from the latest start date
    among the three sleep records.  When that date is 2024-06-30T00:00:00Z, the table returned and
    written holds exactly the sleep records whose start date is at or after
    2024-05-31T00:00:00Z, in their order, and no record of another type. *)
Theorem end_to_end_example d0 d1 d2 d3 d4 t0 t2 t3 :
  parse_iso8601 d0 = Some (Some t0) →
  parse_iso8601 d2 = Some (Some t2) →
  parse_iso8601 d3 = Some (Some t3) →
  latest Reference.jun_30_2024 [instant t0; instant t2; instant t3] →
  ∃ df_out w',
    Pipeline.extract_sleep_data parse_iso8601 parse_infer str_of
      (Reference.archive (Reference.five_records d0 d1 d2 d3 d4))
      "export.zip" "sleep_data.parquet" = (Ok (Some df_out), w') ∧
    fs w' !! "sleep_data.parquet" = Some (Parquet df_out) ∧
    let keep := [ (Reference.may_31_2024 <=? instant t0)%Z;
                  (Reference.may_31_2024 <=? instant t2)%Z;
                  (Reference.may_31_2024 <=? instant t3)%Z ] in
    getitem df_out "type" =
      Some (MkSeries object
             (select keep [ Str "HKCategoryTypeIdentifierSleepAnalysis";
                            Str "SleepSession"; Str "sleep_efficiency" ])) ∧
    getitem df_out "start_date" =
      Some (MkSeries (datetime64 UTC)
             (select keep [ Stamp (Ts (instant t0) UTC); Stamp (Ts (instant t2) UTC);
                            Stamp (Ts (instant t3) UTC) ])).
Proof.
  intros P0 P2 P3 Hlatest.
  pose proof (archive_read (Reference.five_records d0 d1 d2 d3 d4)) as Hread.
  rewrite five_records_scan in Hread.
  destruct (parsed_table_spec parse_iso8601 parse_infer _ _ _ _ Hread)
    as (s1 & s2 & s3 & Hp & H1 & _ & _).
  assert (s1 = MkSeries (datetime64 UTC)
            [Stamp (Ts (instant t0) UTC); Stamp (Ts (instant t2) UTC);
             Stamp (Ts (instant t3) UTC)]) as ->.
  { destruct H1 as [[_ ->]|[Hex _]].
    - unfold strict_column. simpl. rewrite P0, P2, P3. reflexivity.
    - exfalso. simpl in Hex.
      repeat (apply Exists_cons in Hex as [(str & [= <-] & Hr)|Hex]; [congruence|]).
      inversion Hex. }
  match type of Hp with _ = Ok (parsed_frame ?recs ?s1 _ _) =>
    destruct (extract_returns parse_iso8601 parse_infer str_of _ _
                "sleep_data.parquet" _ _ s1 s2 s3 Hread Hp) as (df_out & w' & Hrun)
  end.
  { assert (∀ t, t ∈ [Ts (instant t0) UTC; Ts (instant t2) UTC; Ts (instant t3) UTC]
                 → aware t = true) as Haw.
    { intros t Ht. repeat (apply elem_of_cons in Ht as [->|Ht]; [reflexivity|]).
      inversion Ht. }
    intros t t' Ht Ht'. rewrite (Haw t Ht), (Haw t' Ht'). reflexivity. }
  { discriminate. }
  exists df_out, w'. split; [exact Hrun|].
  apply run_window in Hrun
    as (recs & s1' & s2' & s3' & mask & m & Hread' & Hp' & _ & _ & _ & Hm & ->
        & _ & Hlen & Hmask & Hfs).
  rewrite Hread in Hread'. injection Hread' as <-.
  rewrite Hp in Hp'. injection Hp' as <- <- <-.
  split; [rewrite Hfs; apply lookup_insert_eq|].
  assert (m = Reference.jun_30_2024) as ->.
  { eapply latest_unique; [exact Hm|].
    change (instants _) with [instant (Ts (instant t0) UTC);
      instant (Ts (instant t2) UTC); instant (Ts (instant t3) UTC)].
    rewrite !instant_utc. exact Hlatest. }
  destruct mask as [|b0 [|b1 [|b2 [|? ?]]]]; simpl in Hlen; try discriminate.
  rewrite may_31_cutoff in Hmask.
  assert (b0 = (Reference.may_31_2024 <=? instant t0)%Z) as ->.
  { apply eq_true_iff_eq. rewrite Z.leb_le. specialize (Hmask 0).
    change (_ !! 0 = Some true) with (Some b0 = Some true) in Hmask.
    split.
    - intros ->. destruct Hmask as [(t & [= <-] & H) _]; [reflexivity|].
      rewrite instant_utc in H. exact H.
    - intros H. assert (Some b0 = Some true) as [= ->]; [|reflexivity].
      apply Hmask. exists (Ts (instant t0) UTC).
      split; [reflexivity | rewrite instant_utc; exact H]. }
  assert (b1 = (Reference.may_31_2024 <=? instant t2)%Z) as ->.
  { apply eq_true_iff_eq. rewrite Z.leb_le. specialize (Hmask 1).
    change (_ !! 1 = Some true) with (Some b1 = Some true) in Hmask.
    split.
    - intros ->. destruct Hmask as [(t & [= <-] & H) _]; [reflexivity|].
      rewrite instant_utc in H. exact H.
    - intros H. assert (Some b1 = Some true) as [= ->]; [|reflexivity].
      apply Hmask. exists (Ts (instant t2) UTC).
      split; [reflexivity | rewrite instant_utc; exact H]. }
  assert (b2 = (Reference.may_31_2024 <=? instant t3)%Z) as ->.
  { apply eq_true_iff_eq. rewrite Z.leb_le. specialize (Hmask 2).
    change (_ !! 2 = Some true) with (Some b2 = Some true) in Hmask.
    split.
    - intros ->. destruct Hmask as [(t & [= <-] & H) _]; [reflexivity|].
      rewrite instant_utc in H. exact H.
    - intros H. assert (Some b2 = Some true) as [= ->]; [|reflexivity].
      apply Hmask. exists (Ts (instant t3) UTC).
      split; [reflexivity | rewrite instant_utc; exact H]. }
  split; reflexivity.
Qed.

End example.

(** ** Date parsing and the written table *)

Section written.
Import Py ET Pandas Pipeline Spec.
Variable parse_iso8601 : string → option (option Timestamp).
Variable parse_infer : list cell → string → option (option Timestamp).
Variable str_of : cell → string.

(** Date parsing, lines 58-66.  Whenever the conversion of the date
    columns of the records completes, it has dropped no row and touched no
    other column: each date column is its strict UTC parse when the strict
    format refuses none of its values, and otherwise the coerced,
    format-free parse of the whole column, where a value that cannot be read
    is [NaT]. *)
Theorem dates_parse_by_column w zip_path r recs df :
  read_records w zip_path = Ok (r :: recs) →
  Pipeline.parsed_table parse_iso8601 parse_infer w zip_path = Ok df →
  ∃ s1 s2 s3,
    df = parsed_frame (r :: recs) s1 s2 s3 ∧
    Spec.date_parse parse_iso8601 parse_infer (raw_column (r :: recs) "start_date") s1 ∧
    Spec.date_parse parse_iso8601 parse_infer (raw_column (r :: recs) "end_date") s2 ∧
    Spec.date_parse parse_iso8601 parse_infer (raw_column (r :: recs) "creation_date") s3 ∧
    rectangular df ∧
    len df = length (r :: recs).
Proof.
  intros Hread Hdf.
  destruct (parsed_table_spec parse_iso8601 parse_infer _ _ _ _ Hread)
    as (s1 & s2 & s3 & Hp & H1 & H2 & H3).
  rewrite Hp in Hdf. injection Hdf as <-.
  exists s1, s2, s3. split; [reflexivity|]. repeat (split; [assumption|]).
  apply rectangular_parsed_frame;
    erewrite date_parse_length by eassumption; apply raw_column_length.
Qed.

(** The written table.  A run that returns a table has written exactly
    that table to the output file; its columns are the seven keys of the
    records, in their order, and the four columns that are not dates are
    object columns holding the records' values at the rows kept. *)
Theorem written_table_has_seven_columns w zip_path output_file df_out w' :
  Pipeline.extract_sleep_data parse_iso8601 parse_infer str_of
    w zip_path output_file = (Ok (Some df_out), w') →
  fs w' !! output_file = Some (Parquet df_out) ∧
  columns df_out = seven_columns ∧
  ∃ recs mask, read_records w zip_path = Ok recs ∧
    ∀ k, k ∈ ["type"; "value"; "unit"; "source_name"] →
      getitem df_out k
      = Some (MkSeries object (select mask (values (raw_column recs k)))).
Proof.
  intros (recs & s1 & s2 & s3 & mask & m & Hread & _ & _ & _ & _ & _ & -> & _
          & _ & _ & Hfs)%run_window.
  split; [rewrite Hfs; apply lookup_insert_eq|].
  split; [rewrite columns_getitem_mask; reflexivity|].
  exists recs, mask. split; [exact Hread|].
  intros k Hk. repeat (apply elem_of_cons in Hk as [->|Hk]; [reflexivity|]).
  inversion Hk.
Qed.

End written.

(** ** Closed examples *)

Section examples.
Import Py ET Pandas Pipeline Spec.

Local Abbreviation run := Reference.run.
Local Abbreviation archive := Reference.archive.

Example reference_iso_utc :
  Reference.iso8601 "2024-06-30T00:00:00Z"
  = Some (Some (Ts Reference.jun_30_2024 UTC)) ∧
  Reference.iso8601 "2024-05-31T00:00:00Z"
  = Some (Some (Ts Reference.may_31_2024 UTC)).
Proof. split; vm_compute; reflexivity. Qed.

Example reference_iso_offset :
  Reference.iso8601 "2024-06-30 02:00:00 +0200"
  = Some (Some (Ts 1719712800000000000 (Some 7200000000000%Z))).
Proof. vm_compute. reflexivity. Qed.

Example reference_us_date :
  Reference.iso8601 "06/30/2024 10:00:00" = None ∧
  Reference.infer [] "06/30/2024 10:00:00" = Some (Some (Ts 1719741600000000000 None)).
Proof. split; vm_compute; reflexivity. Qed.

Lemma archive_file doc :
  fs (archive doc) !! "export.zip"
  = Some (ZipArchive {[ export_xml := WellFormed doc ]}).
Proof. apply lookup_singleton_eq. Qed.

Lemma archive_member doc :
  ({[ export_xml := WellFormed doc ]} : gmap string xml) !! export_xml
  = Some (WellFormed doc).
Proof. apply lookup_singleton_eq. Qed.

(** C3 (date parsing): the fallback is not normalized to UTC.  A start
    date written [06/30/2024 10:00:00] is refused by the strict call; the
    fallback call, which does not pass [utc=True], gives a tz-naive column,
    while the [end_date] column of the same table, parsed by the strict
    call, is in UTC. *)
Theorem fallback_column_is_not_utc :
  Pandas.to_datetime Reference.iso8601 Reference.infer
    (MkSeries object [Str "06/30/2024 10:00:00"]) (Some ISO8601) true raise_
  = Raise ValueError ∧
  ∃ df, Samples.parsed Reference.us_dated = Ok df ∧
    getitem df "start_date"
    = Some (MkSeries (datetime64 None) [Stamp (Ts 1719741600000000000 None)]) ∧
    getitem df "end_date"
    = Some (MkSeries (datetime64 UTC) [Stamp (Ts 1719770400000000000 UTC)]).
Proof.
  split; [vm_compute; reflexivity|].
  exists Samples.us_dated_frame. repeat split; vm_compute; reflexivity.
Qed.

(** C5 (output table): the written [start_date] column need not be UTC.
    On the same input the file written has the seven columns, and its
    [start_date] column is [datetime64[ns]] without a time zone. *)
Theorem written_start_date_is_naive :
  run Reference.us_dated = (Ok (Some Samples.us_dated_frame), Samples.us_dated_world) ∧
  fs Samples.us_dated_world !! "sleep_data.parquet" = Some (Parquet Samples.us_dated_frame) ∧
  columns Samples.us_dated_frame = seven_columns ∧
  dt <$> getitem Samples.us_dated_frame "start_date" = Some (datetime64 None) ∧
  dt <$> getitem Samples.us_dated_frame "end_date" = Some (datetime64 UTC).
Proof. repeat split; vm_compute; reflexivity. Qed.

(** C2 (keyword filter): a root that is a sleep record is lost.  The root
    of [record_root] is a [Record] whose type, [SleepSession], contains a
    keyword, and the loop yields nothing for it: the [root.clear()] of the
    inner record's iteration has emptied the root's attributes before its
    own end tag is reached.  The same root without the record inside it
    is kept. *)
Lemma root_record_is_dropped :
  sleep_typed (obj_of Reference.record_root) ∧
  Filter.scan Reference.record_root = [] ∧
  Filter.scan (Reference.record "SleepSession"
                 [("startDate", "2024-06-30T00:00:00Z")] [])
  = [record_of (obj_of Reference.record_root)].
Proof.
  split; [|split; vm_compute; reflexivity].
  split; [reflexivity|]. exists "SleepSession". split; [vm_compute; reflexivity|].
  right. left. exists "", "Session". reflexivity.
Qed.

(** C8 does not hold in document order on a record nested in a record: the inner record,
    second in the document, is appended first. *)
Lemma nested_records_come_inner_first :
  preorder Reference.nested_records
  = [Obj "HealthData" ∅; Reference.outer_record; Reference.inner_record] ∧
  sleep_typed Reference.outer_record ∧ sleep_typed Reference.inner_record ∧
  Filter.scan Reference.nested_records
  = [record_of Reference.inner_record; record_of Reference.outer_record] ∧
  record_of Reference.inner_record ≠ record_of Reference.outer_record.
Proof.
  split; [vm_compute; reflexivity|].
  split; [|split; [|split]].
  - split; [reflexivity|]. exists "HKCategoryTypeIdentifierSleepAnalysis".
    split; [vm_compute; reflexivity|].
    right. left. exists "HKCategoryTypeIdentifier", "Analysis". reflexivity.
  - split; [reflexivity|]. exists "SleepSession".
    split; [vm_compute; reflexivity|].
    right. left. exists "", "Session". reflexivity.
  - vm_compute. reflexivity.
  - vm_compute. discriminate.
Qed.

(** Start dates spread every ten days in document order: the latest date,
    2024-06-30, is on the HeartRate record, the latest sleep record is of
    2024-06-20, and the window, which starts from it, keeps the three sleep
    records, that of 2024-05-21 included. *)
Lemma every_ten_days_keeps_may_21 :
  run Reference.every_ten_days
  = (Ok (Some Samples.every_ten_days_frame), Samples.every_ten_days_world) ∧
  Reference.iso8601 "2024-05-21T00:00:00Z"
  = Some (Some (Ts 1716249600000000000 UTC)) ∧
  (1716249600000000000 < Reference.may_31_2024)%Z ∧
  getitem Samples.every_ten_days_frame "type"
  = Some (MkSeries object [ Str "HKCategoryTypeIdentifierSleepAnalysis";
                            Str "SleepSession"; Str "sleep_efficiency" ]) ∧
  getitem Samples.every_ten_days_frame "start_date"
  = Some (MkSeries (datetime64 UTC)
            [ Stamp (Ts 1716249600000000000 UTC);
              Stamp (Ts 1717977600000000000 UTC);
              Stamp (Ts 1718841600000000000 UTC) ]).
Proof. repeat split; vm_compute; reflexivity. Qed.

End examples.

(** ** The theorems at concrete inputs *)

Section witnesses.
Import Py ET Pandas Pipeline Spec.

Local Abbreviation run := Reference.run.
Local Abbreviation archive := Reference.archive.
Local Abbreviation extract_sleep_data :=
  (Pipeline.extract_sleep_data Reference.iso8601 Reference.infer Reference.str_of).

Lemma window_invariant_witness :
  run Reference.latest_on_sleep
  = (Ok (Some Samples.latest_on_sleep_frame), Samples.latest_on_sleep_world) ∧
  ∃ df s mask m,
    Samples.parsed Reference.latest_on_sleep = Ok df ∧
    getitem df "start_date" = Some s ∧
    latest m (instants s) ∧
    Samples.latest_on_sleep_frame = getitem_mask df mask ∧
    rows Samples.latest_on_sleep_frame = select mask (rows df) ∧
    length mask = len df ∧
    ∀ i, mask !! i = Some true ↔
         ∃ t, values s !! i = Some (Stamp t) ∧ (m - hours_720 <= instant t)%Z.
Proof.
  assert (run Reference.latest_on_sleep
          = (Ok (Some Samples.latest_on_sleep_frame), Samples.latest_on_sleep_world)) as H
    by (vm_compute; reflexivity).
  split; [exact H|].
  exact (window_invariant Reference.iso8601 Reference.infer Reference.str_of
           (archive Reference.latest_on_sleep) "export.zip" "sleep_data.parquet"
           Samples.latest_on_sleep_frame Samples.latest_on_sleep_world H).
Defined.


Lemma missing_attribute_witness :
  ∃ recs, read_records (archive Reference.undated) "export.zip" = Ok recs ∧
    (∀ o, o ∈ descendants Reference.undated → sleep_typed o → record_of o ∈ recs) ∧
    (∀ r, r ∈ recs →
       ∃ o, o ∈ preorder Reference.undated ∧ sleep_typed o ∧
            dict_get r "type" = Some (get o "type") ∧
            ∀ field attr, (field, attr) ∈ field_attributes →
              dict_get r field = Some (get o attr) ∧
              (obj_attrib o !! attr = None → dict_get r field = Some None)).
Proof.
  exact (missing_attribute_is_null (archive Reference.undated) "export.zip"
           _ Reference.undated (archive_file _) (archive_member _)).
Defined.

Lemma open_errors_witness :
  open_fails Samples.not_a_zip "export.zip" BadZipFile ∧
  extract_sleep_data Samples.not_a_zip "export.zip" "sleep_data.parquet"
  = (Raise BadZipFile, Samples.not_a_zip) ∧
  Pipeline.main Reference.iso8601 Reference.infer Reference.str_of Reference.head_repr
    Samples.not_a_zip = (Raise BadZipFile, Samples.not_a_zip).
Proof.
  assert (fs Samples.not_a_zip !! "export.zip" = Some Other) as Hf
    by apply lookup_singleton_eq.
  assert (open_fails Samples.not_a_zip "export.zip" BadZipFile) as H
    by (apply (not_an_archive _ _ Other Hf); discriminate).
  split; [exact H|].
  destruct (open_errors_are_fatal Reference.iso8601 Reference.infer Reference.str_of
              Reference.head_repr Samples.not_a_zip "export.zip" "sleep_data.parquet"
              BadZipFile H) as [Hx Hmain].
  split; [exact Hx|]. apply Hmain; [reflexivity | reflexivity |].
  rewrite Hf. eexists. reflexivity.
Defined.

Lemma records_order_witness :
  Filter.scan Reference.latest_on_sleep
    `sublist_of` (record_of <$> postorder Reference.latest_on_sleep) ∧
  (records_flat Reference.latest_on_sleep = true →
   ∃ keep, marks_sleep_typed keep (preorder Reference.latest_on_sleep) ∧
           Filter.scan Reference.latest_on_sleep
           = record_of <$> select keep (preorder Reference.latest_on_sleep)) ∧
  records_flat Reference.latest_on_sleep = true.
Proof.
  destruct (records_keep_end_tag_order Reference.iso8601 Reference.infer Reference.str_of
              (archive Reference.latest_on_sleep) "export.zip" _
              Reference.latest_on_sleep (archive_file _) (archive_member _))
    as (H1 & H2 & _).
  split; [exact H1|]. split; [exact H2|]. vm_compute. reflexivity.
Defined.

Lemma end_to_end_witness :
  ∃ df_out w',
    run Reference.latest_on_sleep = (Ok (Some df_out), w') ∧
    fs w' !! "sleep_data.parquet" = Some (Parquet df_out) ∧
    getitem df_out "type" =
      Some (MkSeries object
             [ Str "HKCategoryTypeIdentifierSleepAnalysis"; Str "SleepSession" ]) ∧
    getitem df_out "start_date" =
      Some (MkSeries (datetime64 UTC)
             [ Stamp (Ts Reference.jun_30_2024 UTC);
               Stamp (Ts Reference.may_31_2024 UTC) ]).
Proof.
  assert (latest Reference.jun_30_2024
            [ instant (Ts Reference.jun_30_2024 UTC);
              instant (Ts Reference.may_31_2024 UTC);
              instant (Ts 1716595200000000000 UTC) ]) as Hlatest.
  { split; [left|]. intros x Hx.
    repeat (apply elem_of_cons in Hx as [->|Hx]; [vm_compute; discriminate|]).
    inversion Hx. }
  exact (end_to_end_example Reference.iso8601 Reference.infer Reference.str_of
           "2024-06-30T00:00:00Z" "2024-05-21T00:00:00Z" "2024-05-31T00:00:00Z"
           "2024-05-25T00:00:00Z" "2024-06-10T00:00:00Z"
           (Ts Reference.jun_30_2024 UTC) (Ts Reference.may_31_2024 UTC)
           (Ts 1716595200000000000 UTC)
           ltac:(vm_compute; reflexivity) ltac:(vm_compute; reflexivity)
           ltac:(vm_compute; reflexivity) Hlatest).
Defined.

Lemma null_start_dates_witness :
  read_records (archive Reference.undated) "export.zip"
  = Ok (Filter.scan Reference.undated) ∧
  getitem Samples.undated_table "start_date"
  = Some (MkSeries (datetime64 None) [NaT; NaT]) ∧
  run Reference.undated
  = (Ok None, print no_recent_data (archive Reference.undated)) ∧
  fs (print no_recent_data (archive Reference.undated))
  = fs (archive Reference.undated) ∧
  stdout (print no_recent_data (archive Reference.undated))
  = stdout (archive Reference.undated) ++ ["No sleep data found in the last 30 days."].
Proof.
  pose proof (archive_read Reference.undated) as Hread.
  assert (getitem Samples.undated_table "start_date"
          = Some (MkSeries (datetime64 None) [NaT; NaT])) as Hs
    by (vm_compute; reflexivity).
  split; [exact Hread|]. split; [exact Hs|].
  refine (proj2 (proj2 (proj2
    (null_start_dates_give_empty_result Reference.iso8601 Reference.infer
       Reference.str_of (archive Reference.undated) "export.zip" "sleep_data.parquet"
       (Filter.scan Reference.undated) Samples.undated_table
       (MkSeries (datetime64 None) [NaT; NaT]) Hread _ _ Hs _)))).
  - vm_compute. discriminate.
  - vm_compute. reflexivity.
  - repeat constructor.
Defined.

Lemma dates_parse_witness :
  Samples.parsed Reference.us_dated = Ok Samples.us_dated_frame ∧
  ∃ r recs s1 s2 s3,
    read_records (archive Reference.us_dated) "export.zip" = Ok (r :: recs) ∧
    Samples.us_dated_frame = parsed_frame (r :: recs) s1 s2 s3 ∧
    Spec.date_parse Reference.iso8601 Reference.infer
      (raw_column (r :: recs) "start_date") s1 ∧
    Spec.date_parse Reference.iso8601 Reference.infer
      (raw_column (r :: recs) "end_date") s2 ∧
    Spec.date_parse Reference.iso8601 Reference.infer
      (raw_column (r :: recs) "creation_date") s3 ∧
    rectangular Samples.us_dated_frame ∧
    len Samples.us_dated_frame = length (r :: recs).
Proof.
  assert (Samples.parsed Reference.us_dated = Ok Samples.us_dated_frame) as Hdf
    by (vm_compute; reflexivity).
  split; [exact Hdf|].
  pose proof (archive_read Reference.us_dated) as Hread.
  destruct (Filter.scan Reference.us_dated) as [|r recs] eqn:Hscan;
    [vm_compute in Hscan; discriminate|].
  exists r, recs.
  destruct (dates_parse_by_column Reference.iso8601 Reference.infer
              (archive Reference.us_dated) "export.zip" r recs
              Samples.us_dated_frame Hread Hdf)
    as (s1 & s2 & s3 & H).
  exists s1, s2, s3. split; [exact Hread | exact H].
Defined.

Lemma written_table_witness :
  run Reference.us_dated = (Ok (Some Samples.us_dated_frame), Samples.us_dated_world) ∧
  fs Samples.us_dated_world !! "sleep_data.parquet" = Some (Parquet Samples.us_dated_frame) ∧
  columns Samples.us_dated_frame = seven_columns.
Proof.
  assert (run Reference.us_dated
          = (Ok (Some Samples.us_dated_frame), Samples.us_dated_world)) as H
    by (vm_compute; reflexivity).
  split; [exact H|].
  destruct (written_table_has_seven_columns Reference.iso8601 Reference.infer
              Reference.str_of (archive Reference.us_dated) "export.zip"
              "sleep_data.parquet" _ _ H) as (Hf & Hc & _).
  split; [exact Hf | exact Hc].
Defined.

End witnesses.

(** ** Whole runs *)

Section cases.
Import Py ET Pandas Pipeline Spec Runs.
Variable parse_iso8601 : string → option (option Timestamp).
Variable parse_infer : list cell → string → option (option Timestamp).
Variable str_of : cell → string.

Local Abbreviation parsed_table := (Pipeline.parsed_table parse_iso8601 parse_infer).
Local Abbreviation extract_sleep_data :=
  (Pipeline.extract_sleep_data parse_iso8601 parse_infer str_of).

Lemma fold_later_Raise ts : ∀ acc e, fold_later acc ts = Raise e → e = TypeError.
Proof.
  induction ts as [|t ts IH]; intros acc e; simpl; [discriminate|].
  unfold later. destruct (comparable acc t); simpl; [apply IH | congruence].
Qed.

Lemma max_Raise s e : max s = Raise e → e = TypeError.
Proof.
  unfold max. destruct (stamps (values s)) as [|t ts]; [discriminate|].
  destruct (fold_later t ts) as [m|e'] eqn:H; simpl; [discriminate|].
  intros [= <-]. eapply fold_later_Raise, H.
Qed.

Lemma ge_mask_Raise s cutoff e : ge_mask s cutoff = Raise e → e = TypeError.
Proof.
  unfold ge_mask. induction (values s) as [|c l IH]; simpl; [discriminate|].
  destruct (ge c cutoff) as [b|e'] eqn:Hge; simpl.
  - destruct (mapM _ l) as [bs|e'']; simpl; [discriminate|].
    intros [= <-]. apply IH. reflexivity.
  - intros [= <-]. unfold ge in Hge.
    destruct c, cutoff; try discriminate.
    destruct (comparable t t0); congruence.
Qed.

(** The window raises nothing but the [TypeError] of a comparison. *)
Lemma last_30_days_Raise df e : last_30_days df = Raise e → e = TypeError.
Proof.
  unfold last_30_days. destruct (has_column df "start_date"); [|discriminate].
  destruct (getitem df "start_date") as [s|]; [|discriminate].
  destruct (max s) as [c|e'] eqn:Hmax; simpl.
  - destruct (ge_mask s _) as [mask|e'] eqn:Hge; simpl; [discriminate|].
    intros [= <-]. eapply ge_mask_Raise, Hge.
  - intros [= <-]. eapply max_Raise, Hmax.
Qed.

Lemma max_Ok_uniform s c : max s = Ok c → uniform (values s).
Proof.
  intros [[Hnone _]|(m & _ & _ & Haw)]%max_Ok; intros t t' Ht Ht'.
  - rewrite Hnone in Ht. inversion Ht.
  - rewrite (Haw t Ht), (Haw t' Ht'). reflexivity.
Qed.

Lemma last_30_days_uniform df s df' :
  getitem df "start_date" = Some s → last_30_days df = Ok df' → uniform (values s).
Proof.
  intros Hs. unfold last_30_days. rewrite (has_column_getitem _ _ _ Hs), Hs.
  destruct (max s) as [c|] eqn:Hmax; simpl; [|discriminate].
  intros _. eapply max_Ok_uniform, Hmax.
Qed.

Lemma getitem_getitem_mask df mask col :
  getitem (getitem_mask df mask) col = masked mask <$> getitem df col.
Proof.
  induction df as [|[c s] df IH]; simpl; [reflexivity|].
  destruct (String.eqb c col); [reflexivity | exact IH].
Qed.

(** Lines 83-85 succeed on a column whose timestamps can be compared. *)
Lemma report_Ok df output_file w s :
  getitem df "start_date" = Some s → uniform (values s) →
  ∃ lo hi, min s = Ok lo ∧ max s = Ok hi ∧
    report str_of df output_file w
    = (Ok (), print (range_line str_of lo hi)
                (print (saved_line output_file) (print (count_line df) w))).
Proof.
  intros Hs Hu. destruct (min_total s Hu) as [lo Hlo], (max_total s Hu) as [hi Hhi].
  exists lo, hi. split; [exact Hlo|]. split; [exact Hhi|].
  unfold report. rewrite Hs, Hlo, Hhi. reflexivity.
Qed.

(** A run whose window keeps a row writes the table and reports it. *)
Lemma extract_written w zip_path output_file r recs df df' :
  read_records w zip_path = Ok (r :: recs) →
  parsed_table w zip_path = Ok df →
  last_30_days df = Ok df' → empty df' = false →
  ∃ s' lo hi,
    getitem df' "start_date" = Some s' ∧ min s' = Ok lo ∧ max s' = Ok hi ∧
    extract_sleep_data w zip_path output_file
    = (Ok (Some df'), written str_of df' output_file lo hi w).
Proof.
  intros Hread Hp Hw He.
  destruct (parsed_table_spec parse_iso8601 parse_infer _ _ _ _ Hread)
    as (s1 & s2 & s3 & Hp' & _).
  rewrite Hp in Hp'. injection Hp' as ->.
  pose proof (last_30_days_uniform (parsed_frame (r :: recs) s1 s2 s3) s1 df'
                eq_refl Hw) as Hu.
  destruct (last_30_days_spec (parsed_frame (r :: recs) s1 s2 s3) s1 df'
              eq_refl Hw) as (mask & -> & _).
  destruct (report_Ok (getitem_mask (parsed_frame (r :: recs) s1 s2 s3) mask)
              output_file
              (to_parquet (getitem_mask (parsed_frame (r :: recs) s1 s2 s3) mask)
                 output_file w)
              (masked mask s1))
    as (lo & hi & Hlo & Hhi & Hrep).
  { rewrite getitem_getitem_mask. reflexivity. }
  { apply uniform_select, Hu. }
  exists (masked mask s1), lo, hi.
  split; [rewrite getitem_getitem_mask; reflexivity|].
  split; [exact Hlo|]. split; [exact Hhi|].
  unfold Pipeline.extract_sleep_data. unfold Pipeline.parsed_table in Hp.
  rewrite Hread in *. cbn [bind] in Hp. rewrite Hp. cbn [bind].
  rewrite Hw, He, Hrep. reflexivity.
Qed.

Lemma extract_no_records w zip_path output_file :
  read_records w zip_path = Ok [] →
  extract_sleep_data w zip_path output_file = (Ok None, print no_sleep_data w).
Proof. intros H. unfold Pipeline.extract_sleep_data. rewrite H. reflexivity. Qed.

Lemma extract_raise_read w zip_path output_file e :
  read_records w zip_path = Raise e →
  extract_sleep_data w zip_path output_file = (Raise e, w).
Proof. intros H. unfold Pipeline.extract_sleep_data. rewrite H. reflexivity. Qed.

Lemma extract_raise_window w zip_path output_file r recs df e :
  read_records w zip_path = Ok (r :: recs) →
  parsed_table w zip_path = Ok df →
  last_30_days df = Raise e →
  extract_sleep_data w zip_path output_file = (Raise e, w).
Proof.
  unfold Pipeline.extract_sleep_data, Pipeline.parsed_table.
  intros ->. cbn [bind]. intros ->. cbn [bind]. intros ->. reflexivity.
Qed.

(** The outcomes of a run: an error on opening, no record, an error in the
    comparison of the window, an empty window, or a written table. *)
Lemma extract_cases w zip_path output_file :
  (∃ e, read_records w zip_path = Raise e ∧
        extract_sleep_data w zip_path output_file = (Raise e, w)) ∨
  (read_records w zip_path = Ok [] ∧
   extract_sleep_data w zip_path output_file = (Ok None, print no_sleep_data w)) ∨
  (∃ r recs df,
     read_records w zip_path = Ok (r :: recs) ∧ parsed_table w zip_path = Ok df ∧
     ((last_30_days df = Raise TypeError ∧
       extract_sleep_data w zip_path output_file = (Raise TypeError, w)) ∨
      (∃ df', last_30_days df = Ok df' ∧ empty df' = true ∧
         extract_sleep_data w zip_path output_file
         = (Ok None, print no_recent_data w)) ∨
      (∃ df' s' lo hi, last_30_days df = Ok df' ∧ empty df' = false ∧
         getitem df' "start_date" = Some s' ∧ min s' = Ok lo ∧ max s' = Ok hi ∧
         extract_sleep_data w zip_path output_file
         = (Ok (Some df'), written str_of df' output_file lo hi w)))).
Proof.
  destruct (read_records w zip_path) as [[|r recs]|e] eqn:Hread.
  - right. left. split; [reflexivity|]. apply extract_no_records, Hread.
  - right. right.
    destruct (parsed_table_spec parse_iso8601 parse_infer _ _ _ _ Hread)
      as (s1 & s2 & s3 & Hp & _).
    exists r, recs, (parsed_frame (r :: recs) s1 s2 s3).
    split; [reflexivity|]. split; [exact Hp|].
    destruct (last_30_days (parsed_frame (r :: recs) s1 s2 s3)) as [df'|e] eqn:Hw.
    + destruct (empty df') eqn:He.
      * right. left. exists df'. repeat split; auto.
        eapply extract_empty_window; eauto.
      * right. right.
        destruct (extract_written _ _ output_file _ _ _ _ Hread Hp Hw He)
          as (s' & lo & hi & H).
        exists df', s', lo, hi. tauto.
    + pose proof (last_30_days_Raise _ _ Hw) as ->. left.
      split; [reflexivity|]. eapply extract_raise_window; eauto.
  - left. exists e. split; [reflexivity|]. apply extract_raise_read, Hread.
Qed.

End cases.

(** ** Properties of whole runs *)

Section runs.
Import Py ET Pandas Pipeline Spec Runs.
Variable parse_iso8601 : string → option (option Timestamp).
Variable parse_infer : list cell → string → option (option Timestamp).
Variable str_of : cell → string.
Variable head_repr : DataFrame → string.

Local Abbreviation parsed_table := (Pipeline.parsed_table parse_iso8601 parse_infer).
Local Abbreviation extract_sleep_data :=
  (Pipeline.extract_sleep_data parse_iso8601 parse_infer str_of).
Local Abbreviation main := (Pipeline.main parse_iso8601 parse_infer str_of head_repr).

Lemma read_records_Raise w zip_path e :
  read_records w zip_path = Raise e →
  e = FileNotFoundError ∧ fs w !! zip_path = None ∨
  (e = BadZipFile ∨ e = KeyError ∨ e = ParseError) ∧ is_Some (fs w !! zip_path).
Proof.
  unfold read_records. destruct (fs w !! zip_path) as [[members| |]|] eqn:Hf.
  - destruct (members !! export_xml) as [[doc|]|]; intros [= <-]; right; eauto.
  - intros [= <-]. right. eauto.
  - intros [= <-]. right. eauto.
  - intros [= <-]. left. auto.
Qed.

(** Where the exceptions of a run come from. *)
Lemma extract_Raise w zip_path output_file e w' :
  extract_sleep_data w zip_path output_file = (Raise e, w') →
  w' = w ∧
  (read_records w zip_path = Raise e ∨
   e = TypeError ∧ ∃ r recs, read_records w zip_path = Ok (r :: recs)).
Proof.
  intros H.
  destruct (extract_cases parse_iso8601 parse_infer str_of w zip_path output_file)
    as [(e' & Hr & Hx) | [[_ Hx] | (r & recs & df & Hr & _ & Hc)]].
  - rewrite Hx in H. injection H as <- <-. split; [reflexivity|]. left. exact Hr.
  - rewrite Hx in H. discriminate.
  - destruct Hc as [[_ Hx] | [(df' & _ & _ & Hx) | (df' & s' & lo & hi & _ & _ & _ & _ & _ & Hx)]];
      rewrite Hx in H; try discriminate.
    injection H as <- <-. split; [reflexivity|]. right. eauto.
Qed.

(** A run that raises - on opening the archive or its member, on a
    document that is not well formed, or on comparing start dates - has
    printed nothing and written nothing: every print and the write come
    after the last operation that can fail. *)
Theorem failed_run_changes_nothing w zip_path output_file e w' :
  extract_sleep_data w zip_path output_file = (Raise e, w') →
  fs w' = fs w ∧ stdout w' = stdout w.
Proof. intros [-> _]%extract_Raise. split; reflexivity. Qed.

Lemma last_30_days_total df s :
  getitem df "start_date" = Some s → uniform (values s) →
  ∃ df', last_30_days df = Ok df'.
Proof.
  intros Hs Hu. unfold last_30_days. rewrite (has_column_getitem _ _ _ Hs), Hs.
  destruct (max_total s Hu) as [c Hc]. rewrite Hc. cbn [bind].
  apply max_Ok in Hc as [[_ ->]|(m & -> & _ & Haw)].
  - simpl sub. rewrite ge_mask_NaT. simpl. eauto.
  - destruct (ge_mask_cutoff s m (timedelta 30) Haw) as (mask & -> & _).
    simpl. eauto.
Qed.

Lemma elem_of_select_lookup {A} mask (l : list A) x :
  x ∈ select mask l ↔ ∃ i, mask !! i = Some true ∧ l !! i = Some x.
Proof.
  revert l. induction mask as [|b mask IH]; intros [|a l]; simpl.
  - split; [inversion 1 | intros (i & H & _); discriminate].
  - split; [inversion 1 | intros (i & H & _); discriminate].
  - split; [inversion 1 | intros (i & _ & H); discriminate].
  - destruct b.
    + rewrite elem_of_cons, IH. split.
      * intros [->|(i & H1 & H2)]; [exists 0; auto | exists (S i); auto].
      * intros ([|i] & H1 & H2); simpl in *; [left; congruence | right; eauto].
    + rewrite IH. split.
      * intros (i & H1 & H2). exists (S i). auto.
      * intros ([|i] & H1 & H2); simpl in *; [discriminate | eauto].
Qed.

Lemma fold_earlier_Ok ts : ∀ acc m,
  fold_earlier acc ts = Ok m →
  m ∈ acc :: ts ∧ ∀ t, t ∈ acc :: ts → (instant m <= instant t)%Z.
Proof.
  induction ts as [|t ts IH]; intros acc m; simpl.
  - intros [= <-]. split; [left|].
    intros t ->%list_elem_of_singleton. lia.
  - unfold earlier. destruct (comparable acc t); simpl; [|discriminate].
    intros H. apply IH in H as [Hin Hmin]. split.
    + apply elem_of_cons in Hin as [->|Hin].
      * destruct (instant t <? instant acc)%Z; [right; left | left].
      * right. right. exact Hin.
    + assert ((instant m <= instant acc)%Z ∧ (instant m <= instant t)%Z) as [H1 H2].
      { pose proof (Hmin _ ltac:(left)) as Hle.
        destruct (Z.ltb_spec (instant t) (instant acc)); split; lia. }
      intros t' [->|[->|Ht']%elem_of_cons]%elem_of_cons; auto.
      apply Hmin. right. exact Ht'.
Qed.

Lemma min_Ok s c :
  min s = Ok c →
  (stamps (values s) = [] ∧ c = NaT) ∨
  (∃ m, c = Stamp m ∧ earliest (instant m) (instants s)).
Proof.
  unfold min, instants, earliest. destruct (stamps (values s)) as [|t ts].
  - intros [= <-]. left. auto.
  - destruct (fold_earlier t ts) as [m|] eqn:Hm; [|discriminate].
    intros [= <-]. right. exists m. apply fold_earlier_Ok in Hm as [Hin Hmin].
    split; [reflexivity|]. split.
    + apply (list_elem_of_fmap_2 instant), Hin.
    + intros x Hx. apply (list_elem_of_fmap_1 instant) in Hx as (t' & -> & Ht').
      apply Hmin, Ht'.
Qed.

(** The table returned is reported by three lines: the number of its rows,
    the output path, and the range of its start dates.  The upper end of
    the range is the latest start date of all the rows parsed, and the
    range is at most 720 hours wide. *)
Theorem summary_reports_kept_range w zip_path output_file df_out w' :
  extract_sleep_data w zip_path output_file = (Ok (Some df_out), w') →
  ∃ df s lo hi,
    parsed_table w zip_path = Ok df ∧ getitem df "start_date" = Some s ∧
    stdout w' = stdout w ++ [ count_line df_out; saved_line output_file;
                              range_line str_of (Stamp lo) (Stamp hi) ] ∧
    len df_out = length (rows df_out) ∧
    latest (instant hi) (instants s) ∧
    (instant hi - hours_720 <= instant lo)%Z ∧ (instant lo <= instant hi)%Z.
Proof.
  intros H. pose proof H as Hrun.
  apply run_window in Hrun
    as (recs & s1 & s2 & s3 & mask & m & Hread & Hp & _ & _ & _ & Hm & Hout
        & _ & _ & Hmask & _).
  destruct (extract_cases parse_iso8601 parse_infer str_of w zip_path output_file)
    as [(e' & _ & Hx) | [[_ Hx] | (r & recs' & df & _ & _ & Hc)]];
    [rewrite Hx in H; discriminate.. |].
  destruct Hc as [[_ Hx] | [(df' & _ & _ & Hx) | (df' & s' & lo & hi & _ & _ & Hs' & Hlo & Hhi & Hx)]];
    [rewrite Hx in H; discriminate.. |].
  rewrite Hx in H. injection H as <- <-.
  rewrite Hout, getitem_getitem_mask in Hs'. injection Hs' as <-.
  assert (∀ t, t ∈ stamps (values (masked mask s1)) ↔
               Stamp t ∈ values s1 ∧ (m - hours_720 <= instant t)%Z) as Hkept.
  { intros t. rewrite elem_of_stamps. simpl. rewrite elem_of_select_lookup. split.
    - intros (i & Hi & Ht). apply Hmask in Hi as (t' & Ht' & Hle).
      rewrite Ht in Ht'. injection Ht' as <-. split; [|exact Hle].
      apply list_elem_of_lookup. eauto.
    - intros [[i Hi]%list_elem_of_lookup Hle]. exists i. split; [|exact Hi].
      apply Hmask. eauto. }
  destruct Hm as [Hmin Hmax].
  apply (list_elem_of_fmap_1 instant) in Hmin as (tm & -> & Htm).
  assert (tm ∈ stamps (values (masked mask s1))) as Htm'.
  { apply Hkept. split; [apply elem_of_stamps, Htm|]. unfold hours_720. lia. }
  apply max_Ok in Hhi as [[Hnone _]|(mh & -> & [Hh1 Hh2] & _)];
    [rewrite Hnone in Htm'; inversion Htm'|].
  apply min_Ok in Hlo as [[Hnone _]|(ml & -> & [Hl1 Hl2])];
    [rewrite Hnone in Htm'; inversion Htm'|].
  apply (list_elem_of_fmap_1 instant) in Hh1 as (th & Hth & Hh1).
  apply (list_elem_of_fmap_1 instant) in Hl1 as (tl & Htl & Hl1).
  pose proof (proj1 (Hkept th) Hh1) as [Hth_in Hth_le].
  pose proof (proj1 (Hkept tl) Hl1) as [Htl_in Htl_le].
  assert (instant mh = instant tm) as Heq.
  { apply Z.le_antisymm.
    - rewrite Hth. apply Hmax, (list_elem_of_fmap_2 instant), elem_of_stamps, Hth_in.
    - apply Hh2, (list_elem_of_fmap_2 instant), Htm'. }
  exists (parsed_frame recs s1 s2 s3), s1, ml, mh.
  split; [exact Hp|]. split; [reflexivity|].
  split; [unfold written, print; simpl; rewrite <- !app_assoc; reflexivity|].
  split; [unfold rows; rewrite length_map, length_seq; reflexivity|].
  split; [|split].
  - rewrite Heq. split; [apply (list_elem_of_fmap_2 instant), Htm | exact Hmax].
  - rewrite Heq, Htl. exact Htl_le.
  - apply Hl2. rewrite Hth. apply (list_elem_of_fmap_2 instant), Hh1.
Qed.

End runs.

(** ** The program, reruns, and what a run leaves behind *)

Section program.
Import Py ET Pandas Pipeline Spec Runs.
Variable parse_iso8601 : string → option (option Timestamp).
Variable parse_infer : list cell → string → option (option Timestamp).
Variable str_of : cell → string.
Variable head_repr : DataFrame → string.

Local Abbreviation parsed_table := (Pipeline.parsed_table parse_iso8601 parse_infer).
Local Abbreviation extract_sleep_data :=
  (Pipeline.extract_sleep_data parse_iso8601 parse_infer str_of).
Local Abbreviation main := (Pipeline.main parse_iso8601 parse_infer str_of head_repr).

(** The guard of line 95: the program never lets a [FileNotFoundError]
    through.  Without [export.zip] it prints its two lines, returns, and
    leaves the files alone. *)
Theorem main_guards_missing_archive w :
  (main w).1 ≠ Raise FileNotFoundError ∧
  (fs w !! "export.zip" = None →
   main w = (Ok (), MkWorld (fs w) (stdout w ++ file_not_found))).
Proof.
  unfold Pipeline.main. split.
  - destruct (bool_decide (is_Some (fs w !! "export.zip"))) eqn:Hb; [|discriminate].
    apply bool_decide_eq_true in Hb as [f Hf].
    destruct (extract_sleep_data w "export.zip" "sleep_data.parquet")
      as [[[df|]|e] w'] eqn:Hx; simpl.
    + destruct (negb (empty df)); discriminate.
    + discriminate.
    + intros [= ->].
      apply extract_Raise in Hx as (_ & [Hr|[[=] _]]).
      apply read_records_Raise in Hr as [[_ Hnone]|[[[=]|[[=]|[=]]] _]].
      congruence.
  - intros Hnone. rewrite bool_decide_eq_false_2.
    + unfold print, file_not_found. simpl. rewrite <- app_assoc. reflexivity.
    + rewrite Hnone. intros [? [=]].
Qed.

(** Lines 96-101: after a run that returned, the program prints the sample
    exactly when a table was returned; the test [not df.empty] never fails,
    since a table returned has a row. *)
Theorem main_prints_sample_after_write w r w' :
  extract_sleep_data w "export.zip" "sleep_data.parquet" = (Ok r, w') →
  main w = (Ok (),
            match r with
            | Some df => print (head_repr df)
                           (print (String (Ascii.ascii_of_nat 10) "Sample data:") w')
            | None => w'
            end).
Proof.
  intros H. unfold Pipeline.main.
  assert (is_Some (fs w !! "export.zip")) as Hsome.
  { destruct (fs w !! "export.zip") eqn:Hf; [eauto|]. exfalso.
    unfold Pipeline.extract_sleep_data, read_records in H. rewrite Hf in H.
    discriminate. }
  rewrite bool_decide_eq_true_2 by exact Hsome. rewrite H.
  destruct r as [df|]; [|reflexivity].
  apply extract_Some in H as (_ & _ & _ & _ & _ & _ & He & _). rewrite He. reflexivity.
Qed.






(** Nothing keeps the output path apart from the archive's path: a run
    that writes its table over the archive leaves a file that is not a zip
    archive, and the next run on it raises [BadZipFile]. *)
Theorem output_over_archive_breaks_rerun w path df w' :
  extract_sleep_data w path path = (Ok (Some df), w') →
  fs w' !! path = Some (Parquet df) ∧
  extract_sleep_data w' path path = (Raise BadZipFile, w').
Proof.
  intros (_ & _ & _ & _ & _ & _ & _ & Hfs)%extract_Some.
  assert (fs w' !! path = Some (Parquet df)) as Hf
    by (rewrite Hfs; apply lookup_insert_eq).
  split; [exact Hf|]. apply extract_raise_read.
  unfold read_records. rewrite Hf. reflexivity.
Qed.

End program.

(** ** More on the window and on the filter *)

Section more.
Import Py ET Pandas Pipeline Spec Runs.
Variable parse_iso8601 : string → option (option Timestamp).
Variable parse_infer : list cell → string → option (option Timestamp).
Variable str_of : cell → string.

Local Abbreviation date_parse := (Spec.date_parse parse_iso8601 parse_infer).
Local Abbreviation parsed_table := (Pipeline.parsed_table parse_iso8601 parse_infer).
Local Abbreviation extract_sleep_data :=
  (Pipeline.extract_sleep_data parse_iso8601 parse_infer str_of).

Lemma latest_exists (l : list Z) : l ≠ [] → ∃ m, latest m l.
Proof.
  induction l as [|x l IH]; [congruence|]. intros _.
  destruct l as [|y l].
  - exists x. split; [left|]. intros ? ->%list_elem_of_singleton. lia.
  - destruct IH as (m & Hin & Hmax); [discriminate|].
    destruct (Z.le_gt_cases x m).
    + exists m. split; [right; exact Hin|].
      intros z [->|Hz]%elem_of_cons; [lia | apply Hmax, Hz].
    + exists x. split; [left|].
      intros z [->|Hz]%elem_of_cons; [lia | apply Hmax in Hz; lia].
Qed.

(** The window keeps the rows that carry the latest start date. *)
Lemma window_keeps_latest df s df' :
  getitem df "start_date" = Some s → last_30_days df = Ok df' →
  stamps (values s) ≠ [] →
  ∃ mask i, df' = getitem_mask df mask ∧ mask !! i = Some true
            ∧ i < length (values s).
Proof.
  intros Hs Hw Hne.
  destruct (last_30_days_spec df s df' Hs Hw) as (mask & -> & _ & Hmask).
  destruct (latest_exists (instants s)) as (m & Hm).
  { unfold instants. destruct (stamps (values s)); [congruence | discriminate]. }
  pose proof Hm as [Hin _].
  apply (list_elem_of_fmap_1 instant) in Hin as (t & Ht & Hin).
  apply elem_of_stamps, list_elem_of_lookup in Hin as [i Hi].
  exists mask, i. split; [reflexivity|]. split; [|eapply lookup_lt_Some, Hi].
  apply Hmask. exists t, m. split; [exact Hi|]. split; [exact Hm|].
  unfold hours_720. lia.
Qed.

Lemma coerced_cell parser utc c :
  coerced parser utc c = NaT ∨ ∃ t, coerced parser utc c = Stamp t.
Proof.
  destruct c as [|str| |t]; simpl; eauto.
  destruct (parser str) as [[t|]|]; eauto.
Qed.

Lemma date_parse_cells s s' :
  date_parse s s' → Forall (λ c, c = NaT ∨ ∃ t, c = Stamp t) (values s').
Proof.
  intros [[_ ->]|[_ ->]]; simpl; apply Forall_fmap, Forall_forall;
    intros c _; apply coerced_cell.
Qed.

(** The last-30-days line is printed only when no start date could be
    read: as soon as one start date of the records is a timestamp, the run
    does not end on an empty window. *)
Theorem empty_window_means_all_null w zip_path output_file r recs w' :
  read_records w zip_path = Ok (r :: recs) →
  extract_sleep_data w zip_path output_file = (Ok None, w') →
  w' = print no_recent_data w ∧
  ∃ df s, parsed_table w zip_path = Ok df ∧ getitem df "start_date" = Some s ∧
          Forall (λ c, c = NaT) (values s).
Proof.
  intros Hread H.
  destruct (extract_cases parse_iso8601 parse_infer str_of w zip_path output_file)
    as [(e' & Hr & _) | [[Hr _] | (r0 & recs0 & df & _ & Hp & Hc)]];
    [congruence.. |].
  destruct Hc as [[_ Hx] | [(df' & Hw & He & Hx) | (df' & s' & lo & hi & _ & _ & _ & _ & _ & Hx)]];
    rewrite Hx in H; try discriminate.
  injection H as <-. split; [reflexivity|].
  destruct (parsed_table_spec parse_iso8601 parse_infer _ _ _ _ Hread)
    as (s1 & s2 & s3 & Hp' & H1 & _).
  rewrite Hp in Hp'. injection Hp' as ->.
  exists (parsed_frame (r :: recs) s1 s2 s3), s1.
  split; [exact Hp|]. split; [reflexivity|].
  destruct (stamps (values s1)) as [|t ts] eqn:Hst.
  - pose proof (date_parse_cells _ _ H1) as Hcells.
    apply Forall_forall. intros c Hc. rewrite Forall_forall in Hcells.
    destruct (Hcells c Hc) as [->|[t ->]]; [reflexivity|].
    apply elem_of_stamps in Hc. rewrite Hst in Hc. inversion Hc.
  - exfalso.
    destruct (window_keeps_latest (parsed_frame (r :: recs) s1 s2 s3) s1 df'
                eq_refl Hw) as (mask & i & -> & Hi & Hlt).
    { rewrite Hst. discriminate. }
    rewrite (date_parse_length _ _ _ _ H1), raw_column_length in Hlt.
    pose proof (select_true mask (values (raw_column (r :: recs) "type")) i Hi) as Hs.
    rewrite raw_column_length in Hs. specialize (Hs Hlt).
    change (empty (getitem_mask (parsed_frame (r :: recs) s1 s2 s3) mask))
      with (length (select mask (values (raw_column (r :: recs) "type"))) =? 0) in He.
    destruct (select mask _); [congruence | discriminate].
Qed.

(** Every row of the table returned has a type, and the type contains one
    of the three keywords. *)
Theorem output_types_are_sleep_types w zip_path output_file df_out w' :
  extract_sleep_data w zip_path output_file = (Ok (Some df_out), w') →
  ∃ s, getitem df_out "type" = Some s ∧ dt s = object ∧
       length (values s) = len df_out ∧ Forall sleep_cell (values s).
Proof.
  intros (recs & s1 & s2 & s3 & mask & m & Hread & _ & _ & _ & _ & _ & -> & _)%run_window.
  exists (masked mask (raw_column recs "type")).
  split; [reflexivity|]. split; [reflexivity|]. split; [reflexivity|].
  apply Forall_forall. intros c Hc%elem_of_select. simpl in Hc.
  apply list_elem_of_fmap_1 in Hc as (d & -> & Hd).
  apply read_records_Ok in Hread as (members & doc & _ & _ & ->).
  apply scan_sound in Hd as (o & _ & (_ & ty & Hty & Hkw) & ->).
  exists ty. split; [|exact Hkw]. simpl. rewrite Hty. reflexivity.
Qed.

(** Below a root that is not a [Record], the children of the root are
    scanned one after the other: the records of a document are those of its
    first children followed by those of the rest. *)
Theorem scan_of_siblings t a cs1 cs2 :
  t ≠ "Record" →
  Filter.scan (Elem t a (cs1 ++ cs2))
  = Filter.scan (Elem t a cs1) ++ Filter.scan (Elem t a cs2).
Proof.
  intros Ht.
  assert (∀ cs, Filter.scan (Elem t a cs) = omap yield (flat_map postorder cs)) as Hscan.
  { intros cs. rewrite scan_yield. unfold descendants, obj_of. simpl.
    rewrite (yield_not_record (root_after _ _)); [apply app_nil_r|].
    unfold is_record. destruct (existsb has_record cs); simpl;
      apply String.eqb_neq, Ht. }
  rewrite !Hscan, flat_map_app, omap_app. reflexivity.
Qed.

End more.

(** ** The window applied twice *)

Section twice.
Import Py ET Pandas Pipeline Spec Runs.

Lemma select_no_true {A} mask (l : list A) :
  (∀ i, mask !! i ≠ Some true) → select mask l = [].
Proof.
  revert l. induction mask as [|b mask IH]; intros [|a l] H; simpl; try reflexivity.
  destruct b; [destruct (H 0); reflexivity|].
  apply IH. intros i. apply (H (S i)).
Qed.

Lemma select_all_true {A} mask (l : list A) :
  length mask = length l → (∀ i, i < length l → mask !! i = Some true) →
  select mask l = l.
Proof.
  revert l. induction mask as [|b mask IH]; intros [|a l] Hlen H; simpl in *;
    try reflexivity; try discriminate.
  assert (b = true) as -> by (specialize (H 0 ltac:(lia)); simpl in H; congruence).
  f_equal. apply IH; [lia|]. intros i Hi. apply (H (S i)). lia.
Qed.

Lemma getitem_mask_id df mask :
  Forall (λ cs : string * Series, select mask (values cs.2) = values cs.2) df →
  getitem_mask df mask = df.
Proof.
  induction 1 as [|[c [d v]] df Hc _ IH]; simpl in *; [reflexivity|].
  rewrite Hc. f_equal. exact IH.
Qed.

Lemma rectangular_column df col s :
  rectangular df → getitem df col = Some s → length (values s) = len df.
Proof.
  unfold rectangular. intros Hrect Hs.
  assert (∀ n, Forall (λ cs : string * Series, length (values cs.2) = n) df →
               length (values s) = n) as H; [|exact (H _ Hrect)].
  clear Hrect. intros n Hall. induction Hall as [|[c s'] df Hc _ IH]; simpl in Hs;
    [discriminate|].
  destruct (String.eqb c col); [injection Hs as <-; exact Hc | apply IH, Hs].
Qed.

(** The window is a fixed point of itself: applied to its own result, it
    keeps every row. *)
Theorem window_is_idempotent df s df' :
  rectangular df → getitem df "start_date" = Some s →
  last_30_days df = Ok df' →
  last_30_days df' = Ok df'.
Proof.
  intros Hrect Hs Hw.
  pose proof (last_30_days_uniform df s df' Hs Hw) as Hu.
  destruct (last_30_days_spec df s df' Hs Hw) as (mask & -> & Hlen & Hmask).
  assert (getitem (getitem_mask df mask) "start_date" = Some (masked mask s)) as Hs'
    by (rewrite getitem_getitem_mask, Hs; reflexivity).
  assert (∀ mask', length mask' = length (select mask (values s)) →
            (∀ j, j < length (select mask (values s)) → mask' !! j = Some true) →
            getitem_mask (getitem_mask df mask) mask' = getitem_mask df mask) as Hid.
  { intros mask' Hl Ht. apply getitem_mask_id.
    unfold getitem_mask. apply Forall_fmap, Forall_forall. intros [c sc] Hc. simpl.
    assert (length (values sc) = length (values s)) as Hcs.
    { pose proof (proj1 (Forall_forall _ _) Hrect _ Hc) as H1. simpl in H1.
      rewrite H1, (rectangular_column df _ s Hrect Hs). reflexivity. }
    assert (length (select mask (values sc)) = length (select mask (values s))) as Hsl
      by (apply select_length, Hcs).
    apply select_all_true; [congruence|]. intros j Hj. apply Ht. lia. }
  destruct (stamps (values s)) as [|t0 ts] eqn:Hst.
  - assert (∀ i, mask !! i ≠ Some true) as Hnone.
    { intros i (t & m & Ht & _)%Hmask.
      assert (t ∈ stamps (values s)) as Hin
        by (apply elem_of_stamps, list_elem_of_lookup; eauto).
      rewrite Hst in Hin. inversion Hin. }
    rewrite (last_30_days_all_null _ _ Hs').
    + f_equal. apply Hid; simpl; rewrite (select_no_true mask (values s) Hnone);
        [reflexivity | simpl; intros; lia].
    + simpl. rewrite (select_no_true mask (values s) Hnone). reflexivity.
  - destruct (latest_exists (instants s)) as (m & Hm).
    { unfold instants. rewrite Hst. discriminate. }
    assert (∀ c, c ∈ select mask (values s) →
              ∃ t, c = Stamp t ∧ (m - hours_720 <= instant t)%Z) as Hkept.
    { intros c (i & Hi & Hc)%elem_of_select_lookup.
      apply Hmask in Hi as (t & m' & Ht & Hm' & Hle).
      rewrite (latest_unique _ _ _ Hm Hm'). exists t. split; [congruence | exact Hle]. }
    destruct Hm as [Hmin Hmax].
    apply (list_elem_of_fmap_1 instant) in Hmin as (tm & -> & Htm).
    assert (Stamp tm ∈ select mask (values s)) as Htm'.
    { apply elem_of_stamps, list_elem_of_lookup in Htm as [i Hi].
      apply elem_of_select_lookup. exists i. split; [|exact Hi].
      apply Hmask. exists tm, (instant tm). split; [exact Hi|].
      split; [|unfold hours_720; lia].
      split; [apply (list_elem_of_fmap_2 instant), elem_of_stamps,
              list_elem_of_lookup; eauto | exact Hmax]. }
    unfold last_30_days. rewrite (has_column_getitem _ _ _ Hs'), Hs'.
    destruct (max_total (masked mask s)) as [c Hc]; [apply uniform_select, Hu|].
    rewrite Hc. cbn [bind].
    apply max_Ok in Hc as [[Hnone _]|(mh & -> & [Hh1 Hh2] & Haw)].
    { apply elem_of_stamps in Htm'. simpl in Hnone. rewrite Hnone in Htm'.
      inversion Htm'. }
    assert (instant mh = instant tm) as Heq.
    { apply Z.le_antisymm.
      - apply (list_elem_of_fmap_1 instant) in Hh1 as (th & -> & Hh1).
        apply elem_of_stamps, elem_of_select in Hh1.
        apply Hmax, (list_elem_of_fmap_2 instant), elem_of_stamps, Hh1.
      - apply Hh2, (list_elem_of_fmap_2 instant), elem_of_stamps, Htm'. }
    destruct (ge_mask_cutoff (masked mask s) mh (timedelta 30) Haw)
      as (mask' & -> & Hlen' & Hmask').
    cbn [bind]. f_equal. apply Hid; [exact Hlen'|].
    intros j Hj. apply Hmask'.
    destruct (lookup_lt_is_Some_2 (select mask (values s)) j Hj) as [c Hc].
    destruct (Hkept c) as (t & -> & Hle); [apply list_elem_of_lookup; eauto|].
    exists t. split; [exact Hc|]. rewrite Heq, timedelta_30. exact Hle.
Qed.

End twice.

(** ** Whole runs at concrete inputs *)

Section run_witnesses.
Import Py ET Pandas Pipeline Spec Runs.

Local Abbreviation run := Reference.run.
Local Abbreviation archive := Reference.archive.
Local Abbreviation extract_sleep_data :=
  (Pipeline.extract_sleep_data Reference.iso8601 Reference.infer Reference.str_of).

Lemma latest_on_sleep_run :
  run Reference.latest_on_sleep
  = (Ok (Some Samples.latest_on_sleep_frame), Samples.latest_on_sleep_world).
Proof. vm_compute. reflexivity. Qed.

Lemma failed_run_witness :
  extract_sleep_data Samples.not_a_zip "export.zip" "sleep_data.parquet"
  = (Raise BadZipFile, Samples.not_a_zip) ∧
  fs Samples.not_a_zip = fs Samples.not_a_zip ∧
  stdout Samples.not_a_zip = stdout Samples.not_a_zip.
Proof.
  assert (extract_sleep_data Samples.not_a_zip "export.zip" "sleep_data.parquet"
          = (Raise BadZipFile, Samples.not_a_zip)) as H by (vm_compute; reflexivity).
  split; [exact H|].
  exact (failed_run_changes_nothing Reference.iso8601 Reference.infer
           Reference.str_of Samples.not_a_zip "export.zip"
           "sleep_data.parquet" BadZipFile Samples.not_a_zip H).
Defined.

Lemma summary_witness :
  ∃ df s lo hi,
    Samples.parsed Reference.latest_on_sleep = Ok df ∧
    getitem df "start_date" = Some s ∧
    stdout Samples.latest_on_sleep_world
    = stdout (archive Reference.latest_on_sleep)
      ++ [ count_line Samples.latest_on_sleep_frame; saved_line "sleep_data.parquet";
           range_line Reference.str_of (Stamp lo) (Stamp hi) ] ∧
    len Samples.latest_on_sleep_frame = length (rows Samples.latest_on_sleep_frame) ∧
    latest (instant hi) (instants s) ∧
    (instant hi - hours_720 <= instant lo)%Z ∧ (instant lo <= instant hi)%Z.
Proof.
  exact (summary_reports_kept_range Reference.iso8601 Reference.infer Reference.str_of
           (archive Reference.latest_on_sleep) "export.zip" "sleep_data.parquet"
           Samples.latest_on_sleep_frame Samples.latest_on_sleep_world
           latest_on_sleep_run).
Defined.

Lemma main_sample_witness :
  Pipeline.main Reference.iso8601 Reference.infer Reference.str_of Reference.head_repr
    (archive Reference.latest_on_sleep)
  = (Ok (), print (Reference.head_repr Samples.latest_on_sleep_frame)
              (print (String (Ascii.ascii_of_nat 10) "Sample data:")
                 Samples.latest_on_sleep_world)).
Proof.
  exact (main_prints_sample_after_write Reference.iso8601 Reference.infer
           Reference.str_of Reference.head_repr (archive Reference.latest_on_sleep)
           (Some Samples.latest_on_sleep_frame) Samples.latest_on_sleep_world
           latest_on_sleep_run).
Defined.



Lemma over_archive_witness :
  extract_sleep_data (archive Reference.latest_on_sleep) "export.zip" "export.zip"
  = (Ok (Some (Samples.frame_of over_archive)), over_archive.2) ∧
  fs over_archive.2 !! "export.zip" = Some (Parquet (Samples.frame_of over_archive)) ∧
  extract_sleep_data over_archive.2 "export.zip" "export.zip"
  = (Raise BadZipFile, over_archive.2).
Proof.
  assert (extract_sleep_data (archive Reference.latest_on_sleep) "export.zip" "export.zip"
          = (Ok (Some (Samples.frame_of over_archive)), over_archive.2)) as H
    by (vm_compute; reflexivity).
  split; [exact H|].
  exact (output_over_archive_breaks_rerun Reference.iso8601 Reference.infer
           Reference.str_of (archive Reference.latest_on_sleep) "export.zip" _ _ H).
Defined.

Lemma empty_window_witness :
  ∃ df s, Samples.parsed Reference.undated = Ok df ∧
          getitem df "start_date" = Some s ∧ Forall (λ c, c = NaT) (values s).
Proof.
  pose proof (archive_read Reference.undated) as Hread.
  destruct (Filter.scan Reference.undated) as [|r recs] eqn:Hscan;
    [vm_compute in Hscan; discriminate|].
  assert (extract_sleep_data (archive Reference.undated) "export.zip" "sleep_data.parquet"
          = (Ok None, print no_recent_data (archive Reference.undated))) as H
    by (vm_compute; reflexivity).
  exact (proj2 (empty_window_means_all_null Reference.iso8601 Reference.infer
                  Reference.str_of (archive Reference.undated) "export.zip"
                  "sleep_data.parquet" r recs _ Hread H)).
Defined.

Lemma window_idempotent_witness :
  last_30_days latest_on_sleep_table = Ok Samples.latest_on_sleep_frame ∧
  last_30_days Samples.latest_on_sleep_frame = Ok Samples.latest_on_sleep_frame.
Proof.
  assert (last_30_days latest_on_sleep_table = Ok Samples.latest_on_sleep_frame) as H
    by (vm_compute; reflexivity).
  split; [exact H|].
  apply (window_is_idempotent latest_on_sleep_table latest_on_sleep_dates
           Samples.latest_on_sleep_frame); [| reflexivity | exact H].
  unfold rectangular, latest_on_sleep_table. repeat constructor.
Defined.

Lemma output_types_witness :
  ∃ s, getitem Samples.latest_on_sleep_frame "type" = Some s ∧ dt s = object ∧
       length (values s) = len Samples.latest_on_sleep_frame ∧
       Forall sleep_cell (values s).
Proof.
  exact (output_types_are_sleep_types Reference.iso8601 Reference.infer
           Reference.str_of (archive Reference.latest_on_sleep) "export.zip"
           "sleep_data.parquet" _ _ latest_on_sleep_run).
Defined.

Lemma scan_of_siblings_witness :
  Filter.scan (Elem "HealthData" ∅
                 ([Reference.record "SleepSession" [("value", "1")] []] ++
                  [Reference.record "HeartRate" [] [];
                   Reference.record "sleep_efficiency" [] []]))
  = Filter.scan (Elem "HealthData" ∅
                   [Reference.record "SleepSession" [("value", "1")] []])
    ++ Filter.scan (Elem "HealthData" ∅
                      [Reference.record "HeartRate" [] [];
                       Reference.record "sleep_efficiency" [] []]).
Proof.
  apply scan_of_siblings. discriminate.
Defined.

End run_witnesses.

(** ** The end-to-end example, as the specification states it *)

Section end_to_end.
Import Py ET Pandas Pipeline Spec Runs.
Variable parse_iso8601 : string → option (option Timestamp).
Variable parse_infer : list cell → string → option (option Timestamp).
Variable str_of : cell → string.

(** C9 (end-to-end example).  On the five records of the example, with the
    start dates of the three sleep records between 2024-05-31T00:00:00Z and
    2024-06-30T00:00:00Z and any start dates on the two other records, the
    table returned and written holds exactly the three sleep records, in
    their order: the two records of another type are left out, and no
    sleep record is. *)
Theorem end_to_end_three_sleep_records d0 d1 d2 d3 d4 t0 t2 t3 :
  parse_iso8601 d0 = Some (Some t0) →
  parse_iso8601 d2 = Some (Some t2) →
  parse_iso8601 d3 = Some (Some t3) →
  (Reference.may_31_2024 <= instant t0 <= Reference.jun_30_2024)%Z →
  (Reference.may_31_2024 <= instant t2 <= Reference.jun_30_2024)%Z →
  (Reference.may_31_2024 <= instant t3 <= Reference.jun_30_2024)%Z →
  ∃ df_out w',
    Pipeline.extract_sleep_data parse_iso8601 parse_infer str_of
      (Reference.archive (Reference.five_records d0 d1 d2 d3 d4))
      "export.zip" "sleep_data.parquet" = (Ok (Some df_out), w') ∧
    fs w' !! "sleep_data.parquet" = Some (Parquet df_out) ∧
    len df_out = 3 ∧
    getitem df_out "type" =
      Some (MkSeries object
             [ Str "HKCategoryTypeIdentifierSleepAnalysis";
               Str "SleepSession"; Str "sleep_efficiency" ]) ∧
    getitem df_out "start_date" =
      Some (MkSeries (datetime64 UTC)
             [ Stamp (Ts (instant t0) UTC); Stamp (Ts (instant t2) UTC);
               Stamp (Ts (instant t3) UTC) ]).
Proof.
  intros P0 P2 P3 B0 B2 B3.
  pose proof (archive_read (Reference.five_records d0 d1 d2 d3 d4)) as Hread.
  rewrite five_records_scan in Hread.
  destruct (parsed_table_spec parse_iso8601 parse_infer _ _ _ _ Hread)
    as (s1 & s2 & s3 & Hp & H1 & _ & _).
  assert (s1 = MkSeries (datetime64 UTC)
            [Stamp (Ts (instant t0) UTC); Stamp (Ts (instant t2) UTC);
             Stamp (Ts (instant t3) UTC)]) as ->.
  { destruct H1 as [[_ ->]|[Hex _]].
    - unfold strict_column. simpl. rewrite P0, P2, P3. reflexivity.
    - exfalso. simpl in Hex.
      repeat (apply Exists_cons in Hex as [(str & [= <-] & Hr)|Hex]; [congruence|]).
      inversion Hex. }
  match type of Hp with _ = Ok (parsed_frame ?recs ?s1 _ _) =>
    destruct (extract_returns parse_iso8601 parse_infer str_of _ _
                "sleep_data.parquet" _ _ s1 s2 s3 Hread Hp) as (df_out & w' & Hrun)
  end.
  { assert (∀ t, t ∈ [Ts (instant t0) UTC; Ts (instant t2) UTC; Ts (instant t3) UTC]
                 → aware t = true) as Haw.
    { intros t Ht. repeat (apply elem_of_cons in Ht as [->|Ht]; [reflexivity|]).
      inversion Ht. }
    intros t t' Ht Ht'. rewrite (Haw t Ht), (Haw t' Ht'). reflexivity. }
  { discriminate. }
  exists df_out, w'. split; [exact Hrun|].
  apply run_window in Hrun
    as (recs & s1' & s2' & s3' & mask & m & Hread' & Hp' & _ & _ & _ & Hm & ->
        & _ & Hlen & Hmask & Hfs).
  rewrite Hread in Hread'. injection Hread' as <-.
  rewrite Hp in Hp'. injection Hp' as <- <- <-.
  split; [rewrite Hfs; apply lookup_insert_eq|].
  assert (m <= Reference.jun_30_2024)%Z as Hle.
  { destruct Hm as [Hin _].
    change (instants _) with [instant (Ts (instant t0) UTC);
      instant (Ts (instant t2) UTC); instant (Ts (instant t3) UTC)] in Hin.
    rewrite !instant_utc in Hin.
    repeat (apply elem_of_cons in Hin as [->|Hin]; [lia|]). inversion Hin. }
  pose proof may_31_cutoff as Hcut.
  assert (∀ i t, i < 3 →
            [Stamp (Ts (instant t0) UTC); Stamp (Ts (instant t2) UTC);
             Stamp (Ts (instant t3) UTC)] !! i = Some (Stamp (Ts (instant t) UTC)) →
            (Reference.may_31_2024 <= instant t)%Z → mask !! i = Some true) as Hkeep.
  { intros i t _ Hi Hb. apply Hmask. exists (Ts (instant t) UTC).
    split; [exact Hi|]. rewrite instant_utc. lia. }
  destruct mask as [|b0 [|b1 [|b2 [|? ?]]]]; simpl in Hlen; try discriminate.
  pose proof (Hkeep 0 t0 ltac:(lia) eq_refl (proj1 B0)) as [= ->].
  pose proof (Hkeep 1 t2 ltac:(lia) eq_refl (proj1 B2)) as [= ->].
  pose proof (Hkeep 2 t3 ltac:(lia) eq_refl (proj1 B3)) as [= ->].
  repeat split; reflexivity.
Qed.

End end_to_end.

Section end_to_end_witness.
Import Py ET Pandas Pipeline Spec Runs.

Lemma end_to_end_three_witness :
  ∃ df_out w',
    Reference.run
      (Reference.five_records "2024-05-31T00:00:00Z" "2024-05-21T00:00:00Z"
         "2024-06-10T00:00:00Z" "2024-06-30T00:00:00Z" "2024-06-20T00:00:00Z")
    = (Ok (Some df_out), w') ∧
    fs w' !! "sleep_data.parquet" = Some (Parquet df_out) ∧
    len df_out = 3 ∧
    getitem df_out "type" =
      Some (MkSeries object
             [ Str "HKCategoryTypeIdentifierSleepAnalysis";
               Str "SleepSession"; Str "sleep_efficiency" ]) ∧
    getitem df_out "start_date" =
      Some (MkSeries (datetime64 UTC)
             [ Stamp (Ts Reference.may_31_2024 UTC);
               Stamp (Ts 1717977600000000000 UTC);
               Stamp (Ts Reference.jun_30_2024 UTC) ]).
Proof.
  exact (end_to_end_three_sleep_records Reference.iso8601 Reference.infer
           Reference.str_of
           "2024-05-31T00:00:00Z" "2024-05-21T00:00:00Z" "2024-06-10T00:00:00Z"
           "2024-06-30T00:00:00Z" "2024-06-20T00:00:00Z"
           (Ts Reference.may_31_2024 UTC) (Ts 1717977600000000000 UTC)
           (Ts Reference.jun_30_2024 UTC)
           ltac:(vm_compute; reflexivity) ltac:(vm_compute; reflexivity)
           ltac:(vm_compute; reflexivity)
           ltac:(vm_compute; split; discriminate)
           ltac:(vm_compute; split; discriminate)
           ltac:(vm_compute; split; discriminate)).
Defined.

End end_to_end_witness.
